(** * Verification of the temp-storage actions (actions.py)

    The actions of [actions.py] load a CSV file into an embedded DuckDB
    store, query the store, delete the store file and echo a request
    header.  Their own code is control flow, error handling and text
    formatting around three collaborators: the DuckDB engine, the
    filesystem ([os], [pathlib]) and the chat attachment service.

    The development has three layers.
    - [Py]: the fragment of Python the actions use: exceptions and
      [try]/[except] as a state-and-error monad, tuples of values,
      [str], [join], [strip].
    - [Actions]: the four actions and the helper [_access_file],
      transcribed statement by statement over an abstract [Platform]
      (the collaborators).  The SQL text is built exactly as the
      f-strings of the source build it.
    - [Duck]: a reference platform: a filesystem holding the store file,
      and an engine that recognises the statements the actions issue and
      gives them their SQL meaning over a catalog of tables.

    A Python [str] is modelled as a Rocq [string], one [ascii] per
    character, so the model ranges over the strings whose code points are
    below 256.  Exceptions are the instances of [Exception]; what
    [except Exception] does not catch (KeyboardInterrupt, SystemExit) is
    outside the model. *)

From stdpp Require Import gmap strings list pretty sorting.
From Stdlib Require Import ZArith Ascii.

Set Default Proof Using "Type".

(** ** Python fragment *)

Module Py.

(** An instance of [Exception]: its class name and [str(e)]. *)
Record exn := Exn { exn_class : string; exn_text : string }.

Inductive outcome (A : Type) : Type :=
| Ok (a : A)
| Raise (e : exn).
Arguments Ok {A} a.
Arguments Raise {A} e.

(** A statement sequence run in a world [W]: it returns or raises, and
    the effects made before an exception persist. *)
Definition M (W A : Type) : Type := W -> outcome A * W.

Definition ret {W A} (a : A) : M W A := fun w => (Ok a, w).

Definition raise {W A} (e : exn) : M W A := fun w => (Raise e, w).

Definition bind {W A B} (c : M W A) (k : A -> M W B) : M W B :=
  fun w =>
    match c w with
    | (Ok a, w') => k a w'
    | (Raise e, w') => (Raise e, w')
    end.

(** [try: body except Exception as e: handler e]. *)
Definition try_except {W A} (body : M W A) (handler : exn -> M W A) : M W A :=
  fun w =>
    match body w with
    | (Ok a, w') => (Ok a, w')
    | (Raise e, w') => handler e w'
    end.

(** A pure expression that may raise. *)
Definition lift {W A} (o : outcome A) : M W A := fun w => (o, w).

(** A read of the world. *)
Definition gets {W A} (f : W -> A) : M W A := fun w => (Ok (f w), w).

(** A write to the world that cannot raise. *)
Definition modify {W} (f : W -> W) : M W unit := fun w => (Ok tt, f w).

Declare Scope py_scope.
Delimit Scope py_scope with py.
Notation "x <- c ;; k" := (bind c (fun x => k))
  (at level 100, c at next level, right associativity) : py_scope.
Notation "c ;;; k" := (bind c (fun _ => k))
  (at level 100, right associativity) : py_scope.

(** [for x in xs: acc = body acc x], stopping at the first exception. *)
Fixpoint for_each {W A B} (body : B -> A -> M W B) (xs : list A) (acc : B) : M W B :=
  match xs with
  | [] => ret acc
  | x :: xs' => bind (body acc x) (for_each body xs')
  end.

(** [[f(x) for x in xs]] for an [f] that may raise. *)
Fixpoint comprehension {A B} (f : A -> outcome B) (xs : list A) : outcome (list B) :=
  match xs with
  | [] => Ok []
  | x :: xs' =>
      match f x with
      | Raise e => Raise e
      | Ok y =>
          match comprehension f xs' with
          | Raise e => Raise e
          | Ok ys => Ok (y :: ys)
          end
      end
  end.

(** The values the engine hands to Python.  [PyObj cls text] is any
    other object (float, bool, date, Decimal), known by its class name
    and its [str()]. *)
Inductive pyval :=
| PyNone
| PyInt (z : Z)
| PyStr (s : string)
| PyObj (cls text : string).

#[global] Instance pyval_eq_dec : EqDecision pyval.
Proof. solve_decision. Defined.

Definition str (v : pyval) : string :=
  match v with
  | PyNone => "None"
  | PyInt z => pretty z
  | PyStr s => s
  | PyObj _ text => text
  end.

Definition type_name (v : pyval) : string :=
  match v with
  | PyNone => "NoneType"
  | PyInt _ => "int"
  | PyStr _ => "str"
  | PyObj cls _ => cls
  end.

Definition LF : string := String "010" "".

(** [s * n]. *)
Fixpoint str_mul (s : string) (n : nat) : string :=
  match n with
  | O => ""
  | S n' => s +:+ str_mul s n'
  end.

(** [row[i]] on a tuple. *)
Definition subscript (row : list pyval) (i : nat) : outcome pyval :=
  match row !! i with
  | Some v => Ok v
  | None => Raise (Exn "IndexError" "tuple index out of range")
  end.

(** [r[i]] where [r] is a tuple or [None] (the result of [fetchone]). *)
Definition subscript_opt (r : option (list pyval)) (i : nat) : outcome pyval :=
  match r with
  | Some row => subscript row i
  | None => Raise (Exn "TypeError" "'NoneType' object is not subscriptable")
  end.

(** [a, b = row]. *)
Definition unpack2 (row : list pyval) : outcome (pyval * pyval) :=
  match row with
  | [a; b] => Ok (a, b)
  | _ :: _ :: _ :: _ =>
      Raise (Exn "ValueError" "too many values to unpack (expected 2)")
  | _ =>
      Raise (Exn "ValueError"
               ("not enough values to unpack (expected 2, got "
                  +:+ pretty (length row) +:+ ")"))
  end.

(** [v < n] for an int literal [n].  Objects known only by their text
    are not ordered against an int in the model. *)
Definition lt_int (v : pyval) (n : Z) : outcome bool :=
  match v with
  | PyInt z => Ok (z <? n)%Z
  | _ =>
      Raise (Exn "TypeError"
               ("'<' not supported between instances of '"
                  +:+ type_name v +:+ "' and 'int'"))
  end.

(** [sep.join(items)]: every item must be a [str]. *)
Fixpoint str_items (i : nat) (items : list pyval) : outcome (list string) :=
  match items with
  | [] => Ok []
  | PyStr s :: rest =>
      match str_items (S i) rest with
      | Ok ss => Ok (s :: ss)
      | Raise e => Raise e
      end
  | v :: _ =>
      Raise (Exn "TypeError"
               ("sequence item " +:+ pretty i +:+ ": expected str instance, "
                  +:+ type_name v +:+ " found"))
  end.

Definition join (sep : string) (items : list pyval) : outcome string :=
  match str_items 0 items with
  | Ok ss => Ok (String.concat sep ss)
  | Raise e => Raise e
  end.

(** [str.isspace] on one character (code points below 256). *)
Definition isspace (c : ascii) : bool :=
  let n := N_of_ascii c in
  ((9 <=? n) && (n <=? 13) || (28 <=? n) && (n <=? 32)
   || (n =? 133) || (n =? 160))%N.

Fixpoint lstrip (s : string) : string :=
  match s with
  | EmptyString => EmptyString
  | String c s' => if isspace c then lstrip s' else s
  end.

Definition rstrip (s : string) : string :=
  String.rev (lstrip (String.rev s)).

(** [s.strip()]. *)
Definition strip (s : string) : string := rstrip (lstrip s).

(** Truth value of a [str]. *)
Definition truthy (s : string) : bool :=
  match s with
  | EmptyString => false
  | String _ _ => true
  end.

(** The characters of a string. *)
Definition chars (s : string) : list ascii := String.list_ascii_of_string s.

End Py.

Import Py.
Open Scope py_scope.

(** ** The collaborators *)

(** What [con.execute(sql)] leaves on the connection: the rows that
    [fetchall] returns and the column names of [con.description]
    ([None] for a statement without a result set).  An error that the
    engine reports while fetching is folded into [execute] raising. *)
Record cursor := Cursor {
  fetchall : list (list pyval);
  description : option (list pyval)
}.

(** [fetchone()] right after [execute]: the first row, or [None]. *)
Definition fetchone (cur : cursor) : option (list pyval) := head (fetchall cur).

(** The libraries the actions call.  Every call that can fail in Python
    is a computation that may raise; a platform is free to make any of
    them fail. *)
Class Platform := {
  world : Type;
  connection : Type;
  (* pathlib.Path, as strings *)
  path_name : string -> string;
  path_suffix : string -> string;
  path_stem : string -> string;
  path_parent : string -> string;
  path_join : string -> string -> string;
  path_rename : string -> string -> M world string;
  (* sema4ai.actions.chat *)
  chat_get_file : string -> M world string;
  (* duckdb *)
  duckdb_connect : string -> M world connection;
  con_execute : connection -> string -> M world cursor;
  con_close : connection -> M world unit;
  (* os *)
  os_path_exists : string -> world -> bool;
  os_remove : string -> M world unit;
  (* builtins *)
  print : string -> world -> world
}.

(** [sema4ai.actions.Response(result=...)]. *)
Record Response := { result : string }.

(** [sema4ai.actions.Request]: the headers of the inbound request. *)
Record Request := { headers : gmap string string }.

(** ** The actions *)

Section Actions.
Context {P : Platform}.

(** [os.path.join("data", "customer_data.duckdb")]. *)
Definition DB_PATH : string := "data" +:+ "/" +:+ "customer_data.duckdb".

Definition DQ : string := String "034" "".

Definition _access_file (filename : string) : M world (string * string) :=
  let filepath := filename in
  let orig_basename := path_name filepath in
  temp_file <-
    try_except
      (temp_file <- chat_get_file orig_basename ;;
       let temp_file_dir := path_parent temp_file in
       let new_temp_file_name := path_stem temp_file +:+ path_suffix filepath in
       let new_temp_file_path := path_join temp_file_dir new_temp_file_name in
       path_rename temp_file new_temp_file_path)
      (fun err =>
         modify (print ("Error getting file from chat - using filename as is: "
                          +:+ exn_text err)) ;;;
         ret filename) ;;
  ret (orig_basename, temp_file).

Definition create_table_sql (table_name filename : string) : string :=
  "CREATE TABLE IF NOT EXISTS " +:+ table_name
    +:+ " AS SELECT * FROM read_csv_auto('" +:+ filename +:+ "')".

Definition count_rows_sql (table_name : string) : string :=
  "SELECT COUNT(*) FROM " +:+ table_name.

Definition schema_query (table_name : string) : string :=
  LF +:+ "    SELECT column_name, data_type" +:+ LF
     +:+ "    FROM information_schema.columns" +:+ LF
     +:+ "    WHERE table_name = '" +:+ table_name +:+ "'" +:+ LF
     +:+ "    ORDER BY ordinal_position" +:+ LF
     +:+ "    ".

Definition distinct_values_query (table_name col_name : string) : string :=
  "SELECT COUNT(DISTINCT " +:+ DQ +:+ col_name +:+ DQ +:+ ") FROM " +:+ table_name.

Definition values_query (table_name col_name : string) : string :=
  "SELECT DISTINCT " +:+ DQ +:+ col_name +:+ DQ +:+ " FROM " +:+ table_name
    +:+ " ORDER BY " +:+ DQ +:+ col_name +:+ DQ.

Definition sample_sql (table_name : string) : string :=
  "SELECT * FROM " +:+ table_name +:+ " LIMIT 5".

(** The body of [for col_name, data_type in columns]. *)
Definition schema_column (con : connection) (table_name : string)
    (schema_info : string) (col : list pyval) : M world string :=
  cd <- lift (unpack2 col) ;;
  let col_name := cd.1 in
  let data_type := cd.2 in
  let schema_info :=
    schema_info +:+ "Column: " +:+ str col_name +:+ ", Type: " +:+ str data_type in
  cur <- con_execute con (distinct_values_query table_name (str col_name)) ;;
  distinct_count <- lift (subscript_opt (fetchone cur) 0) ;;
  categorical <- lift (lt_int distinct_count 10) ;;
  schema_info <-
    (if categorical : bool then
       cur <- con_execute con (values_query table_name (str col_name)) ;;
       let values := fetchall cur in
       values_list <-
         lift (comprehension
                 (fun val => match subscript val 0 with
                             | Ok v => Ok (str v)
                             | Raise e => Raise e
                             end) values) ;;
       ret (schema_info +:+ ", Possible values: " +:+ String.concat ", " values_list)
     else ret schema_info) ;;
  ret (schema_info +:+ LF).

(** The body of [for row in sample_rows] (and of the same loop in
    [query]). *)
Definition row_line (info : string) (row : list pyval) : string :=
  info +:+ String.concat " | " (str <$> row) +:+ LF.

Definition load_data (filename : string) : M world Response :=
  names <- _access_file filename ;;
  let orig_filename := names.1 in
  let filename := names.2 in
  con <- duckdb_connect DB_PATH ;;
  let table_name := "customers" in
  con_execute con (create_table_sql table_name filename) ;;;
  cur <- con_execute con (count_rows_sql table_name) ;;
  let result := fetchone cur in
  row_count <- lift (subscript_opt result 0) ;;
  let load_msg :=
    "Successfully loaded " +:+ str row_count +:+ " rows from " +:+ orig_filename
      +:+ " into table '" +:+ table_name +:+ "' in DuckDB database at "
      +:+ DB_PATH +:+ "." +:+ LF +:+ LF in
  cur <- con_execute con (schema_query table_name) ;;
  let columns := fetchall cur in
  let schema_info := "Schema Information:" +:+ LF in
  let schema_info := schema_info +:+ str_mul "=" 50 +:+ LF in
  schema_info <- for_each (schema_column con table_name) columns schema_info ;;
  cur <- con_execute con (sample_sql table_name) ;;
  let sample_rows := fetchall cur in
  column_names <- lift (comprehension (fun col => subscript col 0) columns) ;;
  let sample_info := LF +:+ "Sample Data (5 rows):" +:+ LF in
  let sample_info := sample_info +:+ str_mul "=" 50 +:+ LF in
  header <- lift (join " | " column_names) ;;
  let sample_info := sample_info +:+ header +:+ LF in
  let sample_info := sample_info +:+ str_mul "-" 50 +:+ LF in
  let sample_info := fold_left row_line sample_rows sample_info in
  ret {| result := load_msg +:+ schema_info +:+ sample_info |}.

Definition tables_query : string :=
  LF +:+ "            SELECT table_name, table_type" +:+ LF
     +:+ "            FROM information_schema.tables" +:+ LF
     +:+ "            WHERE table_schema = 'main'" +:+ LF
     +:+ "            ORDER BY table_name" +:+ LF
     +:+ "            ".

(** The body of [for row in result] in the table listing. *)
Definition table_line (output : string) (row : list pyval) : outcome string :=
  match subscript row 0 with
  | Raise e => Raise e
  | Ok r0 =>
      match subscript row 1 with
      | Raise e => Raise e
      | Ok r1 => Ok (output +:+ str r0 +:+ " | " +:+ str r1 +:+ LF)
      end
  end.

(** [[col[0] for col in con.description]]. *)
Definition description_names (cur : cursor) : outcome (list pyval) :=
  match description cur with
  | Some names => Ok names
  | None => Raise (Exn "TypeError" "'NoneType' object is not iterable")
  end.

Definition query (sql_query : string) : M world Response :=
  con <- duckdb_connect DB_PATH ;;
  try_except
    (if negb (truthy (strip sql_query)) then
       cur <- con_execute con tables_query ;;
       let result := fetchall cur in
       let output := "Database Tables:" +:+ LF in
       let output := output +:+ str_mul "=" 50 +:+ LF in
       output <-
         (match result with
          | _ :: _ =>
              let output := output +:+ "TABLE_NAME | TABLE_TYPE" +:+ LF in
              let output := output +:+ str_mul "-" 50 +:+ LF in
              for_each (fun output row => lift (table_line output row)) result output
          | [] => ret (output +:+ "No tables found in the database." +:+ LF)
          end) ;;
       ret {| result := output |}
     else
       cur <- con_execute con sql_query ;;
       let result := fetchall cur in
       column_names <- lift (description_names cur) ;;
       let output := "Query Results:" +:+ LF in
       let output := output +:+ str_mul "=" 50 +:+ LF in
       let output := output +:+ "Executed query: " +:+ sql_query +:+ LF +:+ LF in
       let output :=
         output +:+ "Returned " +:+ pretty (length result) +:+ " rows" +:+ LF +:+ LF in
       output <-
         (match result with
          | _ :: _ =>
              header <- lift (join " | " column_names) ;;
              let output := output +:+ header +:+ LF in
              let output := output +:+ str_mul "-" 50 +:+ LF in
              ret (fold_left row_line result output)
          | [] => ret (output +:+ "No rows returned." +:+ LF)
          end) ;;
       ret {| result := output |})
    (fun e => ret {| result := "Error executing query: " +:+ exn_text e |}).

Definition removed_msg : string :=
  "Database file at " +:+ DB_PATH +:+ " has been completely removed.".

Definition missing_msg : string :=
  "Database file at " +:+ DB_PATH +:+ " does not exist.".

Definition cleanup : M world Response :=
  try_except
    (con <- duckdb_connect DB_PATH ;;
     con_close con ;;;
     file_exists <- gets (os_path_exists DB_PATH) ;;
     if file_exists : bool then
       os_remove DB_PATH ;;;
       ret {| result := removed_msg |}
     else
       ret {| result := missing_msg |})
    (fun e => ret {| result := "Error removing database: " +:+ exn_text e |}).

(** [request.headers.get(key)]: the value, or [None]. *)
Definition headers_get (request : Request) (key : string) : pyval :=
  match headers request !! key with
  | Some v => PyStr v
  | None => PyNone
  end.

Definition return_my_thread_id (request : Request) : outcome Response :=
  let thread_id := headers_get request "X-INVOKED_FOR_THREAD_ID" in
  Ok {| result := "Thread id = " +:+ str thread_id |}.

End Actions.

(** ** Reference platform *)

Module Duck.

(** *** Paths ([pathlib.PurePosixPath]) *)

(** [s.split(sep)]. *)
Fixpoint split_on (sep : ascii) (s : string) : list string :=
  match s with
  | EmptyString => [EmptyString]
  | String c s' =>
      if Ascii.eqb c sep then EmptyString :: split_on sep s'
      else match split_on sep s' with
           | [] => [String c EmptyString]
           | h :: t => String c h :: t
           end
  end.

(** The components of a path: empty components and [.] are dropped. *)
Definition parts (p : string) : list string :=
  filter (fun x => x ≠ "" ∧ x ≠ ".") (split_on "/" p).

Definition is_absolute (p : string) : bool :=
  match p with
  | String "/" _ => true
  | _ => false
  end.

Definition path_str (absolute : bool) (ps : list string) : string :=
  match ps with
  | [] => if absolute then "/" else "."
  | _ => (if absolute then "/" else "") +:+ String.concat "/" ps
  end.

Definition posix_name (p : string) : string := default "" (last (parts p)).

(** The text before the first [q] and the text after it. *)
Fixpoint until (q : ascii) (s : string) : option (string * string) :=
  match s with
  | EmptyString => None
  | String c s' =>
      if Ascii.eqb c q then Some (EmptyString, s')
      else match until q s' with
           | Some (a, b) => Some (String c a, b)
           | None => None
           end
  end.

(** [(stem, suffix)] of a final component: the suffix starts at the
    last dot, unless that dot is the first or the last character. *)
Definition split_suffix (name : string) : string * string :=
  match until "." (String.rev name) with
  | Some (String c ext, String d stem) =>
      (String.rev (String d stem), "." +:+ String.rev (String c ext))
  | _ => (name, "")
  end.

Definition posix_stem (p : string) : string := (split_suffix (posix_name p)).1.
Definition posix_suffix (p : string) : string := (split_suffix (posix_name p)).2.

Definition posix_parent (p : string) : string :=
  path_str (is_absolute p) (removelast (parts p)).

Definition posix_join (dir name : string) : string :=
  if is_absolute name then path_str true (parts name)
  else path_str (is_absolute dir) (parts dir ++ parts name).

(** *** Store and filesystem *)

(** A relation as Python sees it: column names with their type names,
    and rows of values, [PyNone] for NULL. *)
Record table := Table {
  columns : list (string * string);
  rows : list (list pyval)
}.

(** An entry of the store's catalog: a table or a view of a schema. *)
Record entry := Entry {
  table_schema : string;
  table_name : string;
  table_type : string;
  data : table
}.

(** The directory [data] of the working directory: absent, or present
    (writable or not) with or without the store file in it. *)
Inductive data_dir :=
| NoDir
| Dir (writable : bool) (store : option (list entry)).

Record fs := World {
  data_directory : data_dir;
  (** the delimited files of the filesystem, each by the path that
      names it and no other file, as [read_csv_auto] reads them; a text
      that the engine takes as a pattern over files is not a key *)
  csv_files : gmap string table;
  (** the attachments of the chat, by basename: where the service
      stages the file, and its content *)
  chat_files : gmap string (string * table);
  stdout : list string
}.

Definition store_of (w : fs) : option (list entry) :=
  match data_directory w with
  | NoDir => None
  | Dir _ s => s
  end.

Definition set_store (s : option (list entry)) (w : fs) : fs :=
  match data_directory w with
  | NoDir => w
  | Dir wr _ =>
      {| data_directory := Dir wr s; csv_files := csv_files w;
         chat_files := chat_files w; stdout := stdout w |}
  end.

Definition set_csv_files (fsm : gmap string table) (w : fs) : fs :=
  {| data_directory := data_directory w; csv_files := fsm;
     chat_files := chat_files w; stdout := stdout w |}.

Definition io_error (text : string) : exn := Exn "IOException" ("IO Error: " +:+ text).

(** [duckdb.connect(database=path)]: opens the store file, creating an
    empty store when the file is missing. *)
Definition connect (path : string) : M fs unit :=
  fun w =>
    if negb (String.eqb path DB_PATH) then
      (Raise (io_error ("Cannot open file " +:+ DQ +:+ path +:+ DQ)), w)
    else
      match data_directory w with
      | NoDir =>
          (Raise (io_error ("Cannot open file " +:+ DQ +:+ path +:+ DQ
                              +:+ ": No such file or directory")), w)
      | Dir _ (Some _) => (Ok tt, w)
      | Dir true None => (Ok tt, set_store (Some []) w)
      | Dir false None =>
          (Raise (io_error ("Cannot open file " +:+ DQ +:+ path +:+ DQ
                              +:+ ": Permission denied")), w)
      end.

(** [os.path.exists(path)]. *)
Definition exists_file (path : string) (w : fs) : bool :=
  if String.eqb path DB_PATH then bool_decide (is_Some (store_of w))
  else bool_decide (is_Some (csv_files w !! path)).

(** [os.remove(path)]. *)
Definition remove_file (path : string) : M fs unit :=
  fun w =>
    if String.eqb path DB_PATH then
      match data_directory w with
      | Dir true (Some _) => (Ok tt, set_store None w)
      | Dir false (Some _) =>
          (Raise (Exn "PermissionError"
                    ("[Errno 13] Permission denied: '" +:+ path +:+ "'")), w)
      | _ =>
          (Raise (Exn "FileNotFoundError"
                    ("[Errno 2] No such file or directory: '" +:+ path +:+ "'")), w)
      end
    else
      match csv_files w !! path with
      | Some _ => (Ok tt, set_csv_files (delete path (csv_files w)) w)
      | None =>
          (Raise (Exn "FileNotFoundError"
                    ("[Errno 2] No such file or directory: '" +:+ path +:+ "'")), w)
      end.

(** [Path(src).rename(dst)]. *)
Definition rename_file (src dst : string) : M fs string :=
  fun w =>
    match csv_files w !! src with
    | Some t => (Ok dst, set_csv_files (<[dst := t]> (delete src (csv_files w))) w)
    | None =>
        (Raise (Exn "FileNotFoundError"
                  ("[Errno 2] No such file or directory: '" +:+ src +:+ "'")), w)
    end.

(** [chat.get_file(name)]: stages the attachment and returns its path. *)
Definition get_file (name : string) : M fs string :=
  fun w =>
    match chat_files w !! name with
    | Some (staged, t) => (Ok staged, set_csv_files (<[staged := t]> (csv_files w)) w)
    | None => (Raise (Exn "ActionError" ("File not found: " +:+ name)), w)
    end.

Definition print_line (s : string) (w : fs) : fs :=
  {| data_directory := data_directory w; csv_files := csv_files w;
     chat_files := chat_files w; stdout := stdout w ++ [s] |}.

(** *** The statements the actions issue *)

Inductive statement :=
| CreateTableAs (path : string)
| CountRows
| Columns
| CountDistinct (col : string)
| SelectDistinct (col : string)
| Sample
| Tables
| Other.

Fixpoint strip_prefix (p s : string) : option string :=
  match p with
  | EmptyString => Some s
  | String a p' =>
      match s with
      | EmptyString => None
      | String b s' => if Ascii.eqb a b then strip_prefix p' s' else None
      end
  end.

(** The text is read against the templates of the actions for the table
    [customers].  A quoted identifier or a quoted path ends at the first
    quote character; a text that fits no template is [Other]. *)
Definition parse (sql : string) : statement :=
  if String.eqb sql (count_rows_sql "customers") then CountRows
  else if String.eqb sql (schema_query "customers") then Columns
  else if String.eqb sql (sample_sql "customers") then Sample
  else if String.eqb sql tables_query then Tables
  else
    match strip_prefix "CREATE TABLE IF NOT EXISTS customers AS SELECT * FROM read_csv_auto('" sql with
    | Some rest =>
        match until "'" rest with
        | Some (path, tail) => if String.eqb tail ")" then CreateTableAs path else Other
        | None => Other
        end
    | None =>
        match strip_prefix ("SELECT COUNT(DISTINCT " +:+ DQ) sql with
        | Some rest =>
            match until "034" rest with
            | Some (col, tail) =>
                if String.eqb tail ") FROM customers" then CountDistinct col else Other
            | None => Other
            end
        | None =>
            match strip_prefix ("SELECT DISTINCT " +:+ DQ) sql with
            | Some rest =>
                match until "034" rest with
                | Some (col, tail) =>
                    if String.eqb tail (" FROM customers ORDER BY " +:+ DQ +:+ col +:+ DQ)
                    then SelectDistinct col else Other
                | None => Other
                end
            | None => Other
            end
        end
    end.

(** *** Their meaning over a catalog *)

(** [FROM customers]: the relation of that name in the schema [main]. *)
Definition find_customers (c : list entry) : option table :=
  data <$> List.find (fun e => String.eqb (table_schema e) "main"
                               && String.eqb (table_name e) "customers") c.

(** [information_schema.tables]: one row per table and view of every
    schema. *)
Definition information_schema_tables (c : list entry) : list entry := c.

Definition name_le (a b : entry) : Prop :=
  String.leb (table_name a) (table_name b) = true.

#[global] Instance name_le_dec : RelDecision name_le.
Proof. intros a b. unfold name_le. apply _. Defined.

Definition tables_row (e : entry) : list pyval :=
  [PyStr (table_name e); PyStr (table_type e)].

(** [SELECT table_name, table_type FROM information_schema.tables
     WHERE table_schema = 'main' ORDER BY table_name]. *)
Definition select_tables (c : list entry) : list entry :=
  merge_sort name_le
    (filter (fun e => table_schema e = "main") (information_schema_tables c)).

(** [information_schema.columns WHERE table_name = 'customers']: the
    columns of every relation so named, of any schema, each with its
    ordinal position. *)
Definition customers_columns (c : list entry) : list (nat * (string * string)) :=
  mjoin ((fun e => imap (fun i col => (S i, col)) (columns (data e)))
           <$> filter (fun e => table_name e = "customers") c).

Definition ordinal_le (a b : nat * (string * string)) : Prop := a.1 ≤ b.1.

#[global] Instance ordinal_le_dec : RelDecision ordinal_le.
Proof. intros a b. unfold ordinal_le. apply _. Defined.

Definition columns_row (oc : nat * (string * string)) : list pyval :=
  [PyStr oc.2.1; PyStr oc.2.2].

(** [... ORDER BY ordinal_position]. *)
Definition select_columns (c : list entry) : list (nat * (string * string)) :=
  merge_sort ordinal_le (customers_columns c).

(** The position of the column named [col]. *)
Fixpoint column_index (cols : list (string * string)) (col : string) : option nat :=
  match cols with
  | [] => None
  | (n, _) :: rest =>
      if String.eqb n col then Some 0 else S <$> column_index rest col
  end.

(** The cells of column [i], NULL where a row is short. *)
Definition column_cells (t : table) (i : nat) : list pyval :=
  (fun r => default PyNone (r !! i)) <$> rows t.

Definition non_null (cells : list pyval) : list pyval :=
  filter (fun v => v ≠ PyNone) cells.

(** [COUNT(DISTINCT col)]: NULL is not counted. *)
Definition count_distinct (cells : list pyval) : nat :=
  length (remove_dups (non_null cells)).

Section Engine.

(** The engine's ascending order on the values of a column. *)
Context (sql_le : relation pyval) `{!RelDecision sql_le}.

(** What the engine does with a statement that is none of the
    templates. *)
Context (user_sql : string -> M fs cursor).

(** [SELECT DISTINCT col ... ORDER BY col]: the distinct values in
    ascending order, NULL last. *)
Definition select_distinct (cells : list pyval) : list pyval :=
  merge_sort sql_le (remove_dups (non_null cells))
    ++ (if bool_decide (PyNone ∈ cells) then [PyNone] else []).

Definition no_customers : exn :=
  Exn "CatalogException" "Catalog Error: Table with name customers does not exist!".

Definition no_column (col : string) : exn :=
  Exn "BinderException"
    ("Binder Error: Referenced column " +:+ DQ +:+ col +:+ DQ
       +:+ " not found in FROM clause!").

(** A query over the cells of a column of [customers]. *)
Definition on_column (c : list entry) (col : string)
    (f : list pyval -> cursor) : outcome cursor :=
  match find_customers c with
  | None => Raise no_customers
  | Some t =>
      match column_index (columns t) col with
      | None => Raise (no_column col)
      | Some i => Ok (f (column_cells t i))
      end
  end.

(** [con.execute(sql)] on the open store [c]. *)
Definition run (sql : string) (c : list entry) : M fs cursor :=
  match parse sql with
  | CreateTableAs path =>
      fun w =>
        (* The source of the table is bound first: the file is read.
           The argument of [read_csv_auto] is a pattern for the engine:
           when it is not the path of a file of the model (the empty
           text, a glob, another spelling of a path), what the engine
           finds for it, or that it finds nothing, is left to
           [user_sql]. *)
        match csv_files w !! path with
        | None => user_sql sql w
        | Some t =>
            match find_customers c with
            | Some _ => (Ok (Cursor [[PyInt 0]] (Some [PyStr "Count"])), w)
            | None =>
                (Ok (Cursor [[PyInt (Z.of_nat (length (rows t)))]] (Some [PyStr "Count"])),
                 set_store (Some (c ++ [Entry "main" "customers" "BASE TABLE" t])) w)
            end
        end
  | CountRows =>
      lift (match find_customers c with
            | None => Raise no_customers
            | Some t =>
                Ok (Cursor [[PyInt (Z.of_nat (length (rows t)))]] (Some [PyStr "count_star()"]))
            end)
  | Columns =>
      ret (Cursor (columns_row <$> select_columns c)
             (Some [PyStr "column_name"; PyStr "data_type"]))
  | CountDistinct col =>
      lift (on_column c col (fun cells =>
              Cursor [[PyInt (Z.of_nat (count_distinct cells))]]
                (Some [PyStr ("count(DISTINCT " +:+ col +:+ ")")])))
  | SelectDistinct col =>
      lift (on_column c col (fun cells =>
              Cursor ((fun v => [v]) <$> select_distinct cells) (Some [PyStr col])))
  | Sample =>
      lift (match find_customers c with
            | None => Raise no_customers
            | Some t => Ok (Cursor (take 5 (rows t)) (Some (PyStr ∘ fst <$> columns t)))
            end)
  | Tables =>
      ret (Cursor (tables_row <$> select_tables c)
             (Some [PyStr "table_name"; PyStr "table_type"]))
  | Other => user_sql sql
  end.

Definition execute (con : unit) (sql : string) : M fs cursor :=
  fun w =>
    match store_of w with
    | Some c => run sql c w
    | None =>
        (Raise (Exn "ConnectionException"
                  "Connection Error: Connection already closed!"), w)
    end.

Definition duck : Platform := {|
  world := fs;
  connection := unit;
  path_name := posix_name;
  path_suffix := posix_suffix;
  path_stem := posix_stem;
  path_parent := posix_parent;
  path_join := posix_join;
  path_rename := rename_file;
  chat_get_file := get_file;
  duckdb_connect := connect;
  con_execute := execute;
  con_close := fun _ => ret tt;
  os_path_exists := exists_file;
  os_remove := remove_file;
  print := print_line
|}.

(** *** What the reports say *)

(** The catalog a new connection works on; [None] when [connect]
    raises. *)
Definition opened (w : fs) : option (list entry) :=
  match data_directory w with
  | NoDir => None
  | Dir _ (Some c) => Some c
  | Dir true None => Some []
  | Dir false None => None
  end.

(** The catalog after [CREATE TABLE IF NOT EXISTS customers AS ...]
    with the source [t0]. *)
Definition create_if_absent (t0 : table) (c : list entry) : list entry :=
  match find_customers c with
  | Some _ => c
  | None => c ++ [Entry "main" "customers" "BASE TABLE" t0]
  end.

(** The table [customers] after that statement. *)
Definition customers_after (t0 : table) (c : list entry) : table :=
  default t0 (find_customers c).

(** A character that ends a quoted text does not occur in [s]. *)
Definition free_of (q : ascii) (s : string) : Prop := q ∉ chars s.

#[global] Instance free_of_dec (q : ascii) (s : string) : Decision (free_of q s).
Proof. unfold free_of. apply _. Defined.

(** The cells of the column named [col]. *)
Definition cells_of (t : table) (col : string) : list pyval :=
  match column_index (columns t) col with
  | Some i => column_cells t i
  | None => []
  end.

(** The columns that the schema section lists: plain names of columns
    of [customers]. *)
Definition listed (t : table) (cols : list (string * string)) : Prop :=
  Forall (fun col => free_of "034" col.1
                     ∧ is_Some (column_index (columns t) col.1)) cols.

Definition load_msg (orig : string) (n : nat) : string :=
  "Successfully loaded " +:+ pretty (Z.of_nat n) +:+ " rows from " +:+ orig
    +:+ " into table 'customers' in DuckDB database at " +:+ DB_PATH +:+ "."
    +:+ LF +:+ LF.

(** The line of a column in the schema section. *)
Definition column_line (t : table) (col : string * string) : string :=
  let cells := cells_of t col.1 in
  ("Column: " +:+ col.1 +:+ ", Type: " +:+ col.2)
    +:+ (if bool_decide (count_distinct cells < 10)
         then ", Possible values: "
                +:+ String.concat ", " (str <$> select_distinct cells)
         else "")
    +:+ LF.

Definition schema_section (t : table) (cols : list (string * string)) : string :=
  ("Schema Information:" +:+ LF +:+ str_mul "=" 50 +:+ LF)
    +:+ String.concat "" (column_line t <$> cols).

Definition row_text (row : list pyval) : string :=
  String.concat " | " (str <$> row) +:+ LF.

Definition sample_section (header : list string) (sample : list (list pyval)) : string :=
  (LF +:+ "Sample Data (5 rows):" +:+ LF +:+ str_mul "=" 50 +:+ LF
      +:+ String.concat " | " header +:+ LF +:+ str_mul "-" 50 +:+ LF)
    +:+ String.concat "" (row_text <$> sample).

(** The columns that [load_data] reads from the catalog. *)
Definition listed_columns (c : list entry) : list (string * string) :=
  snd <$> select_columns c.

Definition report (orig : string) (c : list entry) (t : table) : string :=
  load_msg orig (length (rows t))
    +:+ schema_section t (listed_columns c)
    +:+ sample_section (fst <$> listed_columns c) (take 5 (rows t)).

(** The line of a column with the cells [cells], as the specification
    words it: the distinct values are enumerated, in ascending order,
    exactly when there are fewer than ten of them. *)
Definition line_spec (name type : string) (cells : list pyval) (line : string) : Prop :=
  let n := count_distinct cells in
  (n < 10 →
     ∃ vs : list pyval,
       length vs = n ∧ Sorted sql_le vs ∧ NoDup vs
       ∧ (∀ v, v ∈ vs ↔ v ∈ cells ∧ v ≠ PyNone)
       ∧ line = ("Column: " +:+ name +:+ ", Type: " +:+ type)
                  +:+ (", Possible values: "
                         +:+ String.concat ", "
                               (str <$> vs ++ (if bool_decide (PyNone ∈ cells)
                                               then [PyNone] else [])))
                  +:+ LF)
  ∧ (10 ≤ n → line = ("Column: " +:+ name +:+ ", Type: " +:+ type) +:+ LF).

(** The table listing of [query], for the entries [es]. *)
Definition render_tables (es : list entry) : string :=
  ("Database Tables:" +:+ LF +:+ str_mul "=" 50 +:+ LF)
    +:+ match es with
        | [] => "No tables found in the database." +:+ LF
        | _ =>
            ("TABLE_NAME | TABLE_TYPE" +:+ LF +:+ str_mul "-" 50 +:+ LF)
              +:+ String.concat ""
                    ((fun e => table_name e +:+ " | " +:+ table_type e +:+ LF) <$> es)
        end.

(** The listing as the specification words it: the rows of
    [information_schema.tables], ascending by name. *)
Definition lists_all_tables (text : string) (c : list entry) : Prop :=
  ∃ es : list entry,
    text = render_tables es ∧ Sorted name_le es
    ∧ es ≡ₚ information_schema_tables c.

(** The listing restricted to the schema [main]. *)
Definition lists_main_tables (text : string) (c : list entry) : Prop :=
  ∃ es : list entry,
    text = render_tables es ∧ Sorted name_le es
    ∧ es ≡ₚ filter (fun e => table_schema e = "main") (information_schema_tables c).

End Engine.

End Duck.

(** ** Example stores *)

Module Examples.
Import Duck.

(** Integers in their order; every other value is level with [0]. *)
Definition key (v : pyval) : Z :=
  match v with
  | PyInt z => z
  | _ => 0%Z
  end.

Definition key_le (a b : pyval) : Prop := (key a ≤ key b)%Z.

#[global] Instance key_le_dec : RelDecision key_le.
Proof. intros a b. unfold key_le. apply _. Defined.

(** An engine that rejects every statement outside the templates. *)
Definition no_sql : string -> M fs cursor :=
  fun _ => raise (Exn "ParserException" "Parser Error: syntax error").

Definition engine : Platform := duck key_le no_sql.

Definition visits : table :=
  Table [("id", "BIGINT"); ("score", "BIGINT")]
    [[PyInt 3; PyInt 70]; [PyInt 1; PyInt 10]; [PyInt 3; PyNone];
     [PyInt 2; PyInt 20]; [PyInt 9; PyInt 30]; [PyInt 8; PyInt 40];
     [PyInt 7; PyInt 50]; [PyInt 6; PyInt 60]; [PyInt 5; PyInt 80];
     [PyInt 4; PyInt 90]; [PyInt 10; PyInt 90]].

(** A working directory with [data/], no store file, and the file
    [report.csv]. *)
Definition fresh : fs :=
  World (Dir true None) {[ "report.csv" := visits ]} ∅ [].

(** The same without the file. *)
Definition no_file : fs := World (Dir true None) ∅ ∅ [].

(** A working directory without [data/]. *)
Definition no_data_dir : fs := World NoDir ∅ ∅ [].

(** A store with a table in a second schema. *)
Definition two_schemas_catalog : list entry :=
  [Entry "main" "customers" "BASE TABLE" visits;
   Entry "archive" "orders" "BASE TABLE" (Table [] [])].

Definition two_schemas : fs :=
  World (Dir true (Some two_schemas_catalog)) ∅ ∅ [].

(** A store where a second schema has its own [customers]. *)
Definition shadowed_catalog : list entry :=
  [Entry "main" "customers" "BASE TABLE" visits;
   Entry "archive" "customers" "BASE TABLE" (Table [("id", "BIGINT")] [])].

Definition shadowed : fs :=
  World (Dir true (Some shadowed_catalog)) {[ "report.csv" := visits ]} ∅ [].

(** A request without headers. *)
Definition bare_request : Request := {| headers := ∅ |}.

(** A query text of a tab, a blank and a line feed. *)
Definition blank_query : string := String "009" (String " " (String "010" "")).

End Examples.

(** ** Further stores *)

Module Cases.
Import Duck Examples.

(** An engine that answers every statement outside the templates with
    one row of two columns. *)
Definition one_row_sql : string -> M fs cursor :=
  fun _ => ret (Cursor [[PyInt 7; PyStr "Ann"]] (Some [PyStr "id"; PyStr "name"])).

Definition one_row_engine : Platform := duck key_le one_row_sql.

Definition names : table :=
  Table [("name", "VARCHAR")] [[PyStr "Ann"]; [PyStr "Bob"]].

(** The chat has the attachment [report.csv]; the service stages it as
    [/tmp/upload-17]. *)
Definition attached : fs :=
  World (Dir true None) ∅ {[ "report.csv" := ("/tmp/upload-17", visits) ]} [].

(** The file lies in a directory of its own. *)
Definition nested : fs :=
  World (Dir true None) {[ "/srv/in/report.csv" := visits ]} ∅ [].



(** A second schema has a [customers] with a column of its own. *)
Definition foreign_catalog : list entry :=
  [Entry "main" "customers" "BASE TABLE" visits;
   Entry "archive" "customers" "BASE TABLE" (Table [("region", "VARCHAR")] [])].

Definition foreign : fs :=
  World (Dir true (Some foreign_catalog)) {[ "report.csv" := visits ]} ∅ [].

(** An engine that finds no file for a pattern outside the model, and
    rejects whatever else it is given with the same error. *)
Definition no_match_sql : string -> M fs cursor :=
  fun _ => raise (io_error ("No files found that match the pattern "
                              +:+ DQ +:+ "report.csv" +:+ DQ)).

Definition no_match_engine : Platform := duck key_le no_match_sql.

(** A store whose only table is in a second schema. *)
Definition archive_catalog : list entry :=
  [Entry "archive" "orders" "BASE TABLE" (Table [] [])].

Definition archive_only : fs :=
  World (Dir true (Some archive_catalog)) ∅ ∅ [].

End Cases.

(** ** The table listing, for any engine *)

(** The text of the listing for the rows that the catalog query
    returned, a name and a type each. *)
Definition listing_text (pairs : list (pyval * pyval)) : string :=
  ("Database Tables:" +:+ LF +:+ str_mul "=" 50 +:+ LF)
    +:+ match pairs with
        | [] => "No tables found in the database." +:+ LF
        | _ =>
            ("TABLE_NAME | TABLE_TYPE" +:+ LF +:+ str_mul "-" 50 +:+ LF)
              +:+ String.concat ""
                    ((fun p => str p.1 +:+ " | " +:+ str p.2 +:+ LF) <$> pairs)
        end.

(** * Properties *)

(** ** Strings *)

Lemma app_cons (a : ascii) (s t : string) : String a s +:+ t = String a (s +:+ t).
Proof. reflexivity. Qed.

Lemma app_empty_l (t : string) : "" +:+ t = t.
Proof. reflexivity. Qed.

Lemma app_empty_r (s : string) : s +:+ "" = s.
Proof. induction s as [|a s IH]; [done|]. by rewrite app_cons, IH. Qed.

Lemma app_assoc_str (s t u : string) : (s +:+ t) +:+ u = s +:+ (t +:+ u).
Proof. induction s as [|a s IH]; [done|]. by rewrite !app_cons, IH. Qed.

Lemma chars_app (s t : string) : chars (s +:+ t) = chars s ++ chars t.
Proof. induction s as [|a s IH]; [done|]. rewrite app_cons. simpl. by rewrite IH. Qed.

Lemma chars_rev_app (s t : string) :
  chars (String.rev_app s t) = reverse (chars s) ++ chars t.
Proof.
  revert t. induction s as [|a s IH]; intros t; [done|].
  simpl. rewrite IH, reverse_cons. simpl. by rewrite <- (assoc_L (++)).
Qed.

Lemma chars_rev (s : string) : chars (String.rev s) = reverse (chars s).
Proof. unfold String.rev. rewrite chars_rev_app. simpl. by rewrite (right_id_L [] (++)). Qed.

Lemma chars_nil (s : string) : chars s = [] ↔ s = "".
Proof. destruct s; naive_solver. Qed.

(** A string of whitespace strips to nothing on the left, and only such
    a string does. *)
Lemma lstrip_empty (s : string) :
  lstrip s = "" ↔ Forall (fun c => isspace c = true) (chars s).
Proof.
  induction s as [|a s IH]; simpl.
  - split; [constructor | done].
  - destruct (isspace a) eqn:Ha.
    + rewrite IH. split; [by constructor | by inversion 1].
    + split; [done|]. inversion 1; congruence.
Qed.

(** What is left after [lstrip] is empty or starts with a character
    that is not whitespace. *)
Lemma lstrip_head (s : string) :
  lstrip s = "" ∨ ∃ a r, lstrip s = String a r ∧ isspace a = false.
Proof.
  induction s as [|a s IH]; simpl; [by left|].
  destruct (isspace a) eqn:Ha; [done|]. right. eauto.
Qed.

Lemma rev_empty (s : string) : String.rev s = "" ↔ s = "".
Proof.
  rewrite <- !chars_nil, chars_rev. split; [|by intros ->].
  intros H. apply (f_equal length) in H. rewrite length_reverse in H.
  by destruct (chars s).
Qed.

Lemma strip_empty (s : string) :
  strip s = "" ↔ Forall (fun c => isspace c = true) (chars s).
Proof.
  unfold strip, rstrip. rewrite rev_empty.
  rewrite lstrip_empty, chars_rev, Forall_reverse.
  rewrite <- (lstrip_empty s).
  destruct (lstrip_head s) as [->|(a & r & -> & Ha)]; [done|].
  split; [|done]. inversion 1; congruence.
Qed.

(** ** The actions on every platform *)

Section Generic.
Context {P : Platform}.

(** C8. [cleanup] returns on every platform and in every state of the
    filesystem, and what it returns is the deleted message, the
    did-not-exist message, or the report of a caught error. *)
Theorem cleanup_never_raises (w : world) :
  ∃ msg : string,
    (cleanup w).1 = Ok {| result := msg |}
    ∧ (msg = removed_msg ∨ msg = missing_msg
       ∨ ∃ e : exn, msg = "Error removing database: " +:+ exn_text e).
Proof.
  unfold cleanup, try_except, bind, gets, ret.
  destruct (duckdb_connect DB_PATH w) as [[con|e] w1]; [|by eauto 6].
  destruct (con_close con w1) as [[[]|e] w2]; [|by eauto 6].
  destruct (os_path_exists DB_PATH w2); [|by eauto 6].
  destruct (os_remove DB_PATH w2) as [[[]|e] w3]; by eauto 6.
Qed.

(** The error that [cleanup] reports is the one a library call raised. *)
Lemma cleanup_reports_connect_error (w w1 : world) (e : exn) :
  duckdb_connect DB_PATH w = (Raise e, w1) →
  cleanup w = (Ok {| result := "Error removing database: " +:+ exn_text e |}, w1).
Proof. intros H. unfold cleanup, try_except, bind. by rewrite H. Qed.

Lemma cleanup_reports_remove_error (w w1 w2 w3 : world) (con : connection) (e : exn) :
  duckdb_connect DB_PATH w = (Ok con, w1) →
  con_close con w1 = (Ok tt, w2) →
  os_path_exists DB_PATH w2 = true →
  os_remove DB_PATH w2 = (Raise e, w3) →
  cleanup w = (Ok {| result := "Error removing database: " +:+ exn_text e |}, w3).
Proof.
  intros Hcon Hclose Hex Hrm. unfold cleanup, try_except, bind, gets.
  by rewrite Hcon, Hclose, Hex, Hrm.
Qed.

(** The did-not-exist message is for a store file that is missing once
    the connection has been opened and closed. *)
Lemma cleanup_reports_missing (w w1 w2 : world) (con : connection) :
  duckdb_connect DB_PATH w = (Ok con, w1) →
  con_close con w1 = (Ok tt, w2) →
  os_path_exists DB_PATH w2 = false →
  cleanup w = (Ok {| result := missing_msg |}, w2).
Proof.
  intros Hcon Hclose Hex. unfold cleanup, try_except, bind, gets.
  by rewrite Hcon, Hclose, Hex.
Qed.

(** [query] with a connection at hand absorbs every exception. *)
Lemma query_absorbs_after_connect (sql_query : string) (w w1 : world) (con : connection) :
  duckdb_connect DB_PATH w = (Ok con, w1) →
  ∃ r : Response, (query sql_query w).1 = Ok r.
Proof.
  intros H. unfold query, bind at 1. rewrite H. unfold try_except.
  match goal with |- context [match ?b w1 with _ => _ end] => destruct (b w1) as [[r|e] w2] end;
    by eauto.
Qed.

(** The connection is opened before the [try]: when it fails, [query]
    raises. *)
Lemma query_raises_when_connect_raises (sql_query : string) (w w1 : world) (e : exn) :
  duckdb_connect DB_PATH w = (Raise e, w1) →
  query sql_query w = (Raise e, w1).
Proof. intros H. unfold query, bind at 1. by rewrite H. Qed.

(** A query text with a character that is not whitespace is executed as
    it stands. *)
Lemma query_executes_text (sql_query : string) (w w1 : world) (con : connection) (e : exn)
    (w2 : world) :
  ¬ Forall (fun c => isspace c = true) (chars sql_query) →
  duckdb_connect DB_PATH w = (Ok con, w1) →
  con_execute con sql_query w1 = (Raise e, w2) →
  query sql_query w = (Ok {| result := "Error executing query: " +:+ exn_text e |}, w2).
Proof.
  intros Hblank Hcon Hex. rewrite <- strip_empty in Hblank.
  unfold query, bind at 1. rewrite Hcon. unfold try_except.
  destruct (strip sql_query) eqn:Hs; [done|]. simpl.
  unfold bind at 1. by rewrite Hex.
Qed.

(** One round of the schema loop, on every platform: the values are
    asked for and written exactly when the count that the engine
    returned is below ten. *)
Lemma schema_column_enumerates (con : connection) (table info : string)
    (name type : pyval) (w w1 w2 : world) (cur values : cursor) (n : Z)
    (rest : list pyval) (texts : list string) :
  con_execute con (distinct_values_query table (str name)) w = (Ok cur, w1) →
  fetchone cur = Some (PyInt n :: rest) → (n < 10)%Z →
  con_execute con (values_query table (str name)) w1 = (Ok values, w2) →
  comprehension (fun val => match subscript val 0 with
                            | Ok v => Ok (str v)
                            | Raise e => Raise e
                            end) (fetchall values) = Ok texts →
  schema_column con table info [name; type] w
  = (Ok (((info +:+ "Column: " +:+ str name +:+ ", Type: " +:+ str type)
            +:+ ", Possible values: " +:+ String.concat ", " texts) +:+ LF), w2).
Proof.
  intros Hcount Hone Hn Hvalues Htexts.
  unfold schema_column, bind at 1, lift at 1, unpack2. cbn [fst snd].
  unfold bind at 1. rewrite Hcount.
  unfold bind at 1, lift at 1. rewrite Hone. cbn [subscript_opt subscript lookup list_lookup].
  unfold bind at 1, lift at 1, lt_int.
  destruct (Z.ltb_spec n 10) as [_|]; [|lia].
  unfold bind at 1, bind at 1. rewrite Hvalues.
  unfold bind at 1, lift at 1. by rewrite Htexts.
Qed.

Lemma schema_column_skips (con : connection) (table info : string)
    (name type : pyval) (w w1 : world) (cur : cursor) (n : Z) (rest : list pyval) :
  con_execute con (distinct_values_query table (str name)) w = (Ok cur, w1) →
  fetchone cur = Some (PyInt n :: rest) → (10 ≤ n)%Z →
  schema_column con table info [name; type] w
  = (Ok ((info +:+ "Column: " +:+ str name +:+ ", Type: " +:+ str type) +:+ LF), w1).
Proof.
  intros Hcount Hone Hn.
  unfold schema_column, bind at 1, lift at 1, unpack2. cbn [fst snd].
  unfold bind at 1. rewrite Hcount.
  unfold bind at 1, lift at 1. rewrite Hone. cbn [subscript_opt subscript lookup list_lookup].
  unfold bind at 1, lift at 1, lt_int.
  destruct (Z.ltb_spec n 10) as [|_]; [lia|]. done.
Qed.

(** C5. When the attachment service fails, [_access_file] returns: the
    path it hands back is the caller's own string.  The failure then
    shows where [load_data] reads the file: the exception of that
    statement is the exception of [load_data]. *)
Theorem access_file_falls_back (filename : string) (w w1 : world) (e : exn) :
  chat_get_file (path_name filename) w = (Raise e, w1) →
  let w2 :=
    print ("Error getting file from chat - using filename as is: " +:+ exn_text e) w1 in
  _access_file filename w = (Ok (path_name filename, filename), w2)
  ∧ ∀ (con : connection) (w3 w4 : world) (e' : exn),
      duckdb_connect DB_PATH w2 = (Ok con, w3) →
      con_execute con (create_table_sql "customers" filename) w3 = (Raise e', w4) →
      load_data filename w = (Raise e', w4).
Proof.
  intros Hget w2.
  assert (Hacc : _access_file filename w = (Ok (path_name filename, filename), w2)).
  { unfold _access_file, bind at 1, try_except, bind at 1. by rewrite Hget. }
  split; [done|]. intros con w3 w4 e' Hcon Hex.
  unfold load_data, bind at 1. rewrite Hacc. simpl.
  unfold bind at 1. rewrite Hcon. unfold bind at 1. by rewrite Hex.
Qed.

(** The same holds when the staged file cannot be renamed. *)
Lemma access_file_falls_back_on_rename (filename staged : string) (w w1 w2 : world) (e : exn) :
  chat_get_file (path_name filename) w = (Ok staged, w1) →
  path_rename staged
    (path_join (path_parent staged) (path_stem staged +:+ path_suffix filename)) w1
    = (Raise e, w2) →
  _access_file filename w
  = (Ok (path_name filename, filename),
     print ("Error getting file from chat - using filename as is: " +:+ exn_text e) w2).
Proof.
  intros Hget Hren.
  unfold _access_file, bind at 1, try_except, bind at 1. rewrite Hget.
  by rewrite Hren.
Qed.

End Generic.

(** C10. [return_my_thread_id] returns for every request, and for a
    request without the header it returns the text [Thread id = None]. *)
Theorem thread_id_of_missing_header (request : Request) :
  (∃ r : Response, return_my_thread_id request = Ok r)
  ∧ (headers request !! "X-INVOKED_FOR_THREAD_ID" = None →
     return_my_thread_id request = Ok {| result := "Thread id = None" |}).
Proof.
  split; [by eexists|]. intros H.
  unfold return_my_thread_id, headers_get. by rewrite H.
Qed.

Lemma thread_id_of_header (request : Request) (v : string) :
  headers request !! "X-INVOKED_FOR_THREAD_ID" = Some v →
  return_my_thread_id request = Ok {| result := "Thread id = " +:+ v |}.
Proof. intros H. unfold return_my_thread_id, headers_get. by rewrite H. Qed.

(** ** The reference platform *)

Import Duck.

(** *** Reading the statements *)

Lemma until_free (q : ascii) (a b : string) :
  free_of q a → until q (a +:+ String q b) = Some (a, b).
Proof.
  unfold free_of. induction a as [|c a IH]; intros Hfree; simpl.
  - by rewrite Ascii.eqb_refl.
  - simpl in Hfree. apply not_elem_of_cons in Hfree as [Hne Hfree].
    destruct (Ascii.eqb_spec c q) as [->|_]; [done|]. by rewrite IH.
Qed.

Lemma until_DQ (col b : string) :
  free_of "034" col → until "034" (col +:+ DQ +:+ b) = Some (col, b).
Proof. apply until_free. Qed.

Lemma parse_create (p : string) :
  free_of "'" p → parse (create_table_sql "customers" p) = CreateTableAs p.
Proof.
  intros Hp. unfold parse, create_table_sql. simpl. rewrite ?app_empty_l.
  by rewrite (until_free "'" p ")" Hp).
Qed.

Lemma parse_count_distinct (col : string) :
  free_of "034" col → parse (distinct_values_query "customers" col) = CountDistinct col.
Proof.
  intros Hp. unfold parse, distinct_values_query. simpl. rewrite ?app_empty_l.
  by rewrite (until_DQ col _ Hp).
Qed.

Lemma parse_select_distinct (col : string) :
  free_of "034" col → parse (values_query "customers" col) = SelectDistinct col.
Proof.
  intros Hp. unfold parse, values_query. simpl. rewrite ?app_empty_l.
  rewrite (until_DQ col _ Hp). by rewrite String.eqb_refl.
Qed.

Lemma parse_count_rows : parse (count_rows_sql "customers") = CountRows.
Proof. reflexivity. Qed.
Lemma parse_schema_query : parse (schema_query "customers") = Columns.
Proof. reflexivity. Qed.
Lemma parse_sample : parse (sample_sql "customers") = Sample.
Proof. reflexivity. Qed.
Lemma parse_tables : parse tables_query = Tables.
Proof. reflexivity. Qed.

(** *** The store file *)
Lemma store_of_set_store (s : option (list entry)) (w : fs) :
  data_directory w ≠ NoDir → store_of (set_store s w) = s.
Proof. destruct w as [[|wr s0] ? ? ?]; by simpl. Qed.

Lemma set_store_id (w : fs) : set_store (store_of w) w = w.
Proof. by destruct w as [[|wr s0] ? ? ?]. Qed.

Lemma set_store_twice (s s' : option (list entry)) (w : fs) :
  set_store s (set_store s' w) = set_store s w.
Proof. by destruct w as [[|wr s0] ? ? ?]. Qed.

Lemma csv_files_set_store (s : option (list entry)) (w : fs) :
  csv_files (set_store s w) = csv_files w.
Proof. by destruct w as [[|wr s0] ? ? ?]. Qed.

Lemma opened_dir (w : fs) (c : list entry) : opened w = Some c → data_directory w ≠ NoDir.
Proof. unfold opened. by destruct (data_directory w). Qed.

Lemma connect_opened (w : fs) (c : list entry) :
  opened w = Some c → connect DB_PATH w = (Ok tt, set_store (Some c) w).
Proof.
  unfold opened, connect. simpl.
  destruct w as [[|[] [c0|]] ? ? ?]; simpl; intros; by simplify_eq.
Qed.

Lemma connect_closed (w : fs) :
  opened w = None → ∃ e, connect DB_PATH w = (Raise e, w).
Proof.
  unfold opened, connect. simpl.
  destruct w as [[|[] [c0|]] ? ? ?]; simpl; intros; simplify_eq; by eexists.
Qed.

Lemma find_customers_app (c c' : list entry) :
  find_customers c = None → find_customers (c ++ c') = find_customers c'.
Proof.
  unfold find_customers. induction c as [|e c IH]; [done|]. simpl.
  destruct (_ && _); [done|]. apply IH.
Qed.

Lemma find_customers_create (t0 : table) (c : list entry) :
  find_customers (create_if_absent t0 c) = Some (customers_after t0 c).
Proof.
  unfold create_if_absent, customers_after.
  destruct (find_customers c) as [t|] eqn:Hc; [done|].
  by rewrite find_customers_app.
Qed.


(** *** Python helpers on engine results *)

Lemma concat_empty_cons (x : string) (l : list string) :
  String.concat "" (x :: l) = x +:+ String.concat "" l.
Proof. destruct l; simpl; [by rewrite app_empty_r | done]. Qed.

Lemma concat_empty_app (l k : list string) :
  String.concat "" (l ++ k) = String.concat "" l +:+ String.concat "" k.
Proof.
  induction l as [|x l IH]; [done|].
  rewrite <- app_comm_cons, !concat_empty_cons, IH. by rewrite app_assoc_str.
Qed.

Lemma comprehension_first (l : list pyval) :
  comprehension (fun val => match subscript val 0 with
                            | Ok v => Ok (str v)
                            | Raise e => Raise e
                            end) ((fun v => [v]) <$> l)
  = Ok (str <$> l).
Proof. induction l as [|v l IH]; [done|]. csimpl. by rewrite IH. Qed.

Lemma comprehension_names (ocs : list (nat * (string * string))) :
  comprehension (fun col => subscript col 0) (columns_row <$> ocs)
  = Ok (PyStr <$> (fst <$> (snd <$> ocs))).
Proof. induction ocs as [|oc ocs IH]; [done|]. csimpl. by rewrite IH. Qed.

Lemma str_items_strings (i : nat) (l : list string) :
  str_items i (PyStr <$> l) = Ok l.
Proof. revert i. induction l as [|x l IH]; intros i; [done|]. csimpl. by rewrite IH. Qed.

Lemma join_strings (sep : string) (l : list string) :
  join sep (PyStr <$> l) = Ok (String.concat sep l).
Proof. unfold join. by rewrite str_items_strings. Qed.

Lemma fold_row_line (sample : list (list pyval)) (info : string) :
  fold_left row_line sample info = info +:+ String.concat "" (row_text <$> sample).
Proof.
  revert info. induction sample as [|row sample IH]; intros info.
  - simpl. by rewrite app_empty_r.
  - rewrite fmap_cons, concat_empty_cons. cbn [fold_left]. rewrite IH.
    unfold row_line, row_text. by rewrite !app_assoc_str.
Qed.

(** *** Sequencing *)

Lemma bind_ok {W A B} (c : M W A) (k : A -> M W B) (w w' : W) (a : A) :
  c w = (Ok a, w') → bind c k w = k a w'.
Proof. intros H. unfold bind. by rewrite H. Qed.

Lemma bind_raise {W A B} (c : M W A) (k : A -> M W B) (w w' : W) (e : exn) :
  c w = (Raise e, w') → bind c k w = (Raise e, w').
Proof. intros H. unfold bind. by rewrite H. Qed.

Lemma bind_lift_ok {W A B} (a : A) (k : A -> M W B) (w : W) :
  bind (lift (Ok a)) k w = k a w.
Proof. reflexivity. Qed.

Lemma bind_ret {W A B} (a : A) (k : A -> M W B) (w : W) :
  bind (ret a) k w = k a w.
Proof. reflexivity. Qed.

(** *** The listing on every platform *)

(** The loop of the listing over rows of a name and a type. *)
Lemma table_lines_pairs {W} (pairs : list (pyval * pyval)) (output : string) (w : W) :
  for_each (fun output row => lift (table_line output row))
    ((fun p => [p.1; p.2]) <$> pairs) output w
  = (Ok (output +:+ String.concat ""
                      ((fun p => str p.1 +:+ " | " +:+ str p.2 +:+ LF) <$> pairs)),
     w).
Proof.
  revert output. induction pairs as [|p pairs IH]; intros output.
  - simpl. by rewrite app_empty_r.
  - rewrite !fmap_cons, concat_empty_cons. cbn [for_each].
    unfold table_line at 1. cbn [subscript lookup list_lookup].
    rewrite bind_lift_ok, IH. by rewrite !app_assoc_str.
Qed.

Section Listing.
Context {P : Platform}.

(** C9. A query text made of whitespace only is treated as the empty
    query: the tables are listed and the text is not executed.  The
    call is the call with the empty text, and what it does is told in
    full by the connection and the one statement [tables_query]: when
    the connection cannot be opened its exception is raised; when the
    catalog statement raises, the answer is the error text; when it
    returns rows of a name and a type, the answer is their listing.  In
    each case the world left behind is the world after that last call:
    no other statement was executed, the text of the caller least of
    all. *)
Theorem query_blank_lists_tables (sql_query : string) (w : world) :
  Forall (fun c => isspace c = true) (chars sql_query) →
  query sql_query w = query "" w
  ∧ (∀ (e : exn) (w1 : world),
       duckdb_connect DB_PATH w = (Raise e, w1) →
       query sql_query w = (Raise e, w1))
  ∧ (∀ (con : connection) (w1 w2 : world) (e : exn),
       duckdb_connect DB_PATH w = (Ok con, w1) →
       con_execute con tables_query w1 = (Raise e, w2) →
       query sql_query w
       = (Ok {| result := "Error executing query: " +:+ exn_text e |}, w2))
  ∧ (∀ (con : connection) (w1 w2 : world) (cur : cursor)
       (pairs : list (pyval * pyval)),
       duckdb_connect DB_PATH w = (Ok con, w1) →
       con_execute con tables_query w1 = (Ok cur, w2) →
       fetchall cur = (fun p => [p.1; p.2]) <$> pairs →
       query sql_query w = (Ok {| result := listing_text pairs |}, w2)).
Proof.
  intros Hblank. apply strip_empty in Hblank.
  assert (Heq : query sql_query w = query "" w).
  { unfold query. by rewrite Hblank. }
  split; [done|]. rewrite Heq. clear Heq Hblank sql_query.
  split_and!.
  - intros e w1 Hcon. unfold query. by apply bind_raise.
  - intros con w1 w2 e Hcon Hex. unfold query.
    rewrite (bind_ok _ _ _ _ _ Hcon).
    unfold try_except. cbn [strip rstrip lstrip String.rev String.rev_app truthy negb].
    by rewrite (bind_raise _ _ _ _ _ Hex).
  - intros con w1 w2 cur pairs Hcon Hex Hrows. unfold query.
    rewrite (bind_ok _ _ _ _ _ Hcon).
    unfold try_except. cbn [strip rstrip lstrip String.rev String.rev_app truthy negb].
    rewrite (bind_ok _ _ _ _ _ Hex). cbn zeta.
    rewrite Hrows. unfold listing_text. destruct pairs as [|p pairs].
    + by rewrite fmap_nil, bind_ret.
    + rewrite fmap_cons, <- (fmap_cons (fun p => [p.1; p.2])).
      rewrite (bind_ok _ _ _ _ _ (table_lines_pairs _ _ _)). unfold ret.
      by rewrite !app_assoc_str.
Qed.

End Listing.

(** *** Running the statements *)

Section Reference.
Context (sql_le : relation pyval) `{!RelDecision sql_le}.
Context (user_sql : string -> M fs cursor).

Local Abbreviation D := (duck sql_le user_sql).
Local Abbreviation exec := (execute sql_le user_sql tt).

Lemma execute_create (p : string) (w : fs) (c : list entry) (t0 : table) :
  free_of "'" p → store_of w = Some c → csv_files w !! p = Some t0 →
  ∃ cur, exec (create_table_sql "customers" p) w
         = (Ok cur, set_store (Some (create_if_absent t0 c)) w).
Proof.
  intros Hp Hc Hf. unfold execute, run. rewrite Hc, (parse_create p Hp), Hf.
  unfold create_if_absent. destruct (find_customers c); [|by eauto].
  rewrite <- Hc, set_store_id. by eauto.
Qed.

Lemma execute_count_rows (w : fs) (c : list entry) (t : table) :
  store_of w = Some c → find_customers c = Some t →
  ∃ d, exec (count_rows_sql "customers") w
       = (Ok (Cursor [[PyInt (Z.of_nat (length (rows t)))]] d), w).
Proof.
  intros Hc Ht. unfold execute, run. rewrite Hc, parse_count_rows, Ht. by eauto.
Qed.

Lemma execute_schema_query (w : fs) (c : list entry) :
  store_of w = Some c →
  ∃ d, exec (schema_query "customers") w
       = (Ok (Cursor (columns_row <$> select_columns c) d), w).
Proof.
  intros Hc. unfold execute, run. rewrite Hc, parse_schema_query. by eauto.
Qed.

Lemma execute_sample (w : fs) (c : list entry) (t : table) :
  store_of w = Some c → find_customers c = Some t →
  ∃ d, exec (sample_sql "customers") w = (Ok (Cursor (take 5 (rows t)) d), w).
Proof.
  intros Hc Ht. unfold execute, run. rewrite Hc, parse_sample, Ht. by eauto.
Qed.

Lemma execute_tables (w : fs) (c : list entry) :
  store_of w = Some c →
  ∃ d, exec tables_query w = (Ok (Cursor (tables_row <$> select_tables c) d), w).
Proof.
  intros Hc. unfold execute, run. rewrite Hc, parse_tables. by eauto.
Qed.

Lemma execute_count_distinct (w : fs) (c : list entry) (t : table) (col : string) :
  store_of w = Some c → find_customers c = Some t →
  free_of "034" col → is_Some (column_index (columns t) col) →
  ∃ d, exec (distinct_values_query "customers" col) w
       = (Ok (Cursor [[PyInt (Z.of_nat (count_distinct (cells_of t col)))]] d), w).
Proof.
  intros Hc Ht Hcol [i Hi]. unfold execute, run, on_column, cells_of.
  rewrite Hc, (parse_count_distinct col Hcol), Ht, Hi. by eauto.
Qed.

Lemma execute_select_distinct (w : fs) (c : list entry) (t : table) (col : string) :
  store_of w = Some c → find_customers c = Some t →
  free_of "034" col → is_Some (column_index (columns t) col) →
  ∃ d, exec (values_query "customers" col) w
       = (Ok (Cursor ((fun v => [v]) <$> select_distinct sql_le (cells_of t col)) d), w).
Proof.
  intros Hc Ht Hcol [i Hi]. unfold execute, run, on_column, cells_of.
  rewrite Hc, (parse_select_distinct col Hcol), Ht, Hi. by eauto.
Qed.

(** One round of the schema loop. *)
Lemma schema_column_line (w : fs) (c : list entry) (t : table) (info : string)
    (oc : nat * (string * string)) :
  store_of w = Some c → find_customers c = Some t →
  free_of "034" oc.2.1 → is_Some (column_index (columns t) oc.2.1) →
  @schema_column D tt "customers" info (columns_row oc) w
  = (Ok (info +:+ column_line sql_le t oc.2), w).
Proof.
  intros Hc Ht Hcol Hi. destruct oc as [i [name type]]. simpl in *.
  unfold schema_column, columns_row. simpl.
  destruct (execute_count_distinct w c t name Hc Ht Hcol Hi) as [d Hcount].
  destruct (execute_select_distinct w c t name Hc Ht Hcol Hi) as [d' Hvalues].
  rewrite bind_lift_ok. cbn [fst snd str].
  rewrite (bind_ok _ _ _ _ _ Hcount). cbn [fetchone fetchall head subscript_opt subscript lookup list_lookup].
  rewrite bind_lift_ok. cbn [lt_int]. rewrite bind_lift_ok.
  unfold column_line. cbn [fst snd].
  replace (bool_decide (count_distinct (cells_of t name) < 10))
    with (Z.of_nat (count_distinct (cells_of t name)) <? 10)%Z.
  2:{ destruct (Z.ltb_spec (Z.of_nat (count_distinct (cells_of t name))) 10).
      - symmetry. apply bool_decide_eq_true. lia.
      - symmetry. apply bool_decide_eq_false. lia. }
  destruct (_ <? _)%Z.
  - unfold bind at 1. rewrite (bind_ok _ _ _ _ _ Hvalues). cbn [fetchall].
    rewrite comprehension_first, bind_lift_ok.
    unfold ret. by rewrite !app_assoc_str.
  - rewrite bind_ret. unfold ret. by rewrite !app_assoc_str.
Qed.

Lemma schema_loop (w : fs) (c : list entry) (t : table)
    (ocs : list (nat * (string * string))) (info : string) :
  store_of w = Some c → find_customers c = Some t →
  listed t (snd <$> ocs) →
  for_each (@schema_column D tt "customers") (columns_row <$> ocs) info w
  = (Ok (info +:+ String.concat "" (column_line sql_le t <$> (snd <$> ocs))), w).
Proof.
  intros Hc Ht. revert info. induction ocs as [|oc ocs IH]; intros info Hl.
  - simpl. by rewrite app_empty_r.
  - rewrite !fmap_cons in *. apply Forall_cons in Hl as [[Hcol Hi] Hl].
    cbn [for_each]. unfold bind at 1.
    rewrite (schema_column_line w c t info oc Hc Ht Hcol Hi).
    rewrite (IH _ Hl). by rewrite concat_empty_cons, app_assoc_str.
Qed.

Lemma load_data_report (filename : string) (w : fs) (orig p : string) (w0 : fs)
    (c : list entry) (t0 : table) :
  @_access_file D filename w = (Ok (orig, p), w0) →
  free_of "'" p → opened w0 = Some c → csv_files w0 !! p = Some t0 →
  listed (customers_after t0 c) (listed_columns (create_if_absent t0 c)) →
  @load_data D filename w
  = (Ok {| result := report sql_le orig (create_if_absent t0 c) (customers_after t0 c) |},
     set_store (Some (create_if_absent t0 c)) w0).
Proof.
  intros Hacc Hp Hopen Hfile Hlisted.
  set (c' := create_if_absent t0 c) in *. set (t := customers_after t0 c) in *.
  pose proof (opened_dir w0 c Hopen) as Hdir.
  assert (Hs1 : store_of (set_store (Some c) w0) = Some c)
    by by apply store_of_set_store.
  assert (Hs2 : store_of (set_store (Some c') w0) = Some c')
    by by apply store_of_set_store.
  assert (Ht : find_customers c' = Some t) by apply find_customers_create.
  destruct (execute_create p (set_store (Some c) w0) c t0 Hp Hs1) as [cur1 Hcreate].
  { by rewrite csv_files_set_store. }
  rewrite set_store_twice in Hcreate. fold c' in Hcreate.
  destruct (execute_count_rows _ c' t Hs2 Ht) as [d2 Hcount].
  destruct (execute_schema_query _ c' Hs2) as [d3 Hschema].
  destruct (execute_sample _ c' t Hs2 Ht) as [d4 Hsample].
  unfold load_data.
  rewrite (bind_ok _ _ _ _ _ Hacc). cbn [fst snd].
  rewrite (bind_ok _ _ _ _ _ (connect_opened w0 c Hopen)).
  rewrite (bind_ok _ _ _ _ _ Hcreate).
  rewrite (bind_ok _ _ _ _ _ Hcount).
  cbn [fetchone fetchall head subscript_opt subscript lookup list_lookup].
  rewrite bind_lift_ok.
  rewrite (bind_ok _ _ _ _ _ Hschema). cbn [fetchall].
  rewrite (bind_ok _ _ _ _ _ (schema_loop _ c' t _ _ Hs2 Ht Hlisted)).
  rewrite (bind_ok _ _ _ _ _ Hsample). cbn [fetchall].
  rewrite comprehension_names, bind_lift_ok.
  rewrite join_strings, bind_lift_ok.
  unfold ret. do 2 f_equal.
  rewrite fold_row_line.
  unfold report, load_msg, schema_section, sample_section, listed_columns. cbn [str].
  by rewrite !app_assoc_str.
Qed.

(** *** The schema section *)

(** The line that the loop writes is the line of the specification. *)
Lemma column_line_spec `{!Total sql_le} (t : table) (name type : string) :
  line_spec sql_le name type (cells_of t name) (column_line sql_le t (name, type)).
Proof.
  unfold line_spec, column_line. cbn [fst snd]. set (cells := cells_of t name).
  split; intros Hn.
  - exists (merge_sort sql_le (remove_dups (non_null cells))).
    split_and!.
    + unfold count_distinct. by rewrite merge_sort_Permutation.
    + by apply Sorted_merge_sort.
    + rewrite merge_sort_Permutation. apply NoDup_remove_dups.
    + intros v. rewrite merge_sort_Permutation, elem_of_remove_dups.
      unfold non_null. by rewrite list_elem_of_filter, (comm and).
    + by rewrite bool_decide_eq_true_2 by done.
  - by rewrite bool_decide_eq_false_2 by lia.
Qed.

(** C1. In the report of [load_data], the line of a column enumerates
    the distinct values of the column, in ascending order, exactly when
    there are fewer than ten of them: all nine when there are nine, none
    when there are ten. *)
Theorem schema_enumerates_below_ten `{!Total sql_le} (filename : string) (w : fs)
    (orig p : string) (w0 : fs) (c : list entry) (t0 : table) :
  @_access_file D filename w = (Ok (orig, p), w0) →
  free_of "'" p → opened w0 = Some c → csv_files w0 !! p = Some t0 →
  let c' := create_if_absent t0 c in
  let t := customers_after t0 c in
  listed t (listed_columns c') →
  ∃ lines : list string,
    (@load_data D filename w).1
    = Ok {| result :=
              load_msg orig (length (rows t))
                +:+ (("Schema Information:" +:+ LF +:+ str_mul "=" 50 +:+ LF)
                       +:+ String.concat "" lines)
                +:+ sample_section (fst <$> listed_columns c') (take 5 (rows t)) |}
    ∧ Forall2 (fun col line => line_spec sql_le col.1 col.2 (cells_of t col.1) line)
        (listed_columns c') lines.
Proof.
  intros Hacc Hp Hopen Hfile c' t Hlisted.
  exists (column_line sql_le t <$> listed_columns c'). split.
  - by rewrite (load_data_report filename w orig p w0 c t0).
  - apply Forall2_fmap_r, Forall_Forall2_diag, Forall_forall.
    intros [name type] _. apply column_line_spec.
Qed.

(** The two cases that the specification names. *)
Lemma nine_values_are_enumerated `{!Total sql_le} (name type : string)
    (cells : list pyval) (line : string) :
  line_spec sql_le name type cells line → count_distinct cells = 9 →
  ∃ vs : list pyval,
    length vs = 9 ∧ Sorted sql_le vs ∧ NoDup vs
    ∧ (∀ v, v ∈ vs ↔ v ∈ cells ∧ v ≠ PyNone)
    ∧ line = ("Column: " +:+ name +:+ ", Type: " +:+ type)
               +:+ (", Possible values: "
                      +:+ String.concat ", "
                            (str <$> vs ++ (if bool_decide (PyNone ∈ cells)
                                            then [PyNone] else [])))
               +:+ LF.
Proof.
  intros [Hlt _] Hn. destruct Hlt as (vs & Hlen & Hrest); [lia|].
  exists vs. split; [congruence | exact Hrest].
Qed.

Lemma ten_values_are_not_enumerated (name type : string)
    (cells : list pyval) (line : string) :
  line_spec sql_le name type cells line → count_distinct cells = 10 →
  line = ("Column: " +:+ name +:+ ", Type: " +:+ type) +:+ LF.
Proof. intros [_ Hge] Hn. apply Hge. lia. Qed.

(** *** Loading twice *)


Lemma opened_set_store (c : list entry) (w : fs) :
  data_directory w ≠ NoDir → opened (set_store (Some c) w) = Some c.
Proof. by destruct w as [[|[] s0] ? ? ?]. Qed.

(** [_access_file] on the reference platform: the attachment is staged
    and renamed, or the caller's string is kept. *)
Lemma access_file_duck (filename : string) (w : fs) :
  @_access_file D filename w
  = match chat_files w !! posix_name filename with
    | Some (staged, t) =>
        let p := posix_join (posix_parent staged)
                   (posix_stem staged +:+ posix_suffix filename) in
        (Ok (posix_name filename, p),
         set_csv_files (<[p := t]> (delete staged (<[staged := t]> (csv_files w)))) w)
    | None =>
        (Ok (posix_name filename, filename),
         print_line ("Error getting file from chat - using filename as is: "
                       +:+ "File not found: " +:+ posix_name filename) w)
    end.
Proof.
  unfold _access_file, bind, try_except. cbn. 
  unfold get_file. destruct (chat_files w !! posix_name filename) as [[staged t]|]; [|done].
  unfold rename_file. cbn. by rewrite lookup_insert_eq.
Qed.




(** *** The table listing *)

#[local] Instance name_le_total : Total name_le.
Proof. intros a b. unfold name_le. apply String.leb_total. Qed.

Lemma table_lines (es : list entry) (output : string) (w : fs) :
  for_each (fun output row => lift (table_line output row)) (tables_row <$> es) output w
  = (Ok (output +:+ String.concat ""
                      ((fun e => table_name e +:+ " | " +:+ table_type e +:+ LF) <$> es)),
     w).
Proof.
  revert output. induction es as [|e es IH]; intros output.
  - simpl. by rewrite app_empty_r.
  - rewrite !fmap_cons, concat_empty_cons. cbn [for_each].
    unfold tables_row at 1, table_line at 1. cbn [subscript lookup list_lookup].
    rewrite bind_lift_ok, IH. cbn [str]. by rewrite !app_assoc_str.
Qed.

(** What [query] answers to the empty text on an open store. *)
Lemma query_empty_listing (w : fs) (c : list entry) :
  opened w = Some c →
  @query D "" w = (Ok {| result := render_tables (select_tables c) |},
                   set_store (Some c) w).
Proof.
  intros Hopen. pose proof (opened_dir w c Hopen) as Hdir.
  destruct (execute_tables (set_store (Some c) w) c) as [d Htables].
  { by apply store_of_set_store. }
  unfold query. rewrite (bind_ok _ _ _ _ _ (connect_opened w c Hopen)).
  unfold try_except. cbn [strip rstrip lstrip String.rev String.rev_app truthy negb].
  rewrite (bind_ok _ _ _ _ _ Htables). cbn [fetchall].
  unfold render_tables. destruct (select_tables c) as [|e es] eqn:Hes.
  - by rewrite fmap_nil, bind_ret.
  - rewrite fmap_cons, <- (fmap_cons tables_row).
    rewrite (bind_ok _ _ _ _ _ (table_lines _ _ _)). unfold ret.
    by rewrite !app_assoc_str.
Qed.

(** What the listing does hold: [query] with the empty text lists the
    tables and views of the schema [main], and only those, ascending by
    name, each with its type. *)
Theorem query_lists_main_tables (w : fs) (c : list entry) :
  opened w = Some c →
  ∃ text : string,
    (@query D "" w).1 = Ok {| result := text |} ∧ lists_main_tables text c.
Proof.
  intros Hopen. rewrite (query_empty_listing w c Hopen).
  eexists. split; [done|]. exists (select_tables c). split_and!; [done|..].
  - apply Sorted_merge_sort. apply _.
  - apply merge_sort_Permutation.
Qed.

(** *** The sample section *)

#[local] Instance ordinal_le_total : Total ordinal_le.
Proof. intros a b. unfold ordinal_le. lia. Qed.

#[local] Instance ordinal_le_trans : Transitive ordinal_le.
Proof. intros a b c. unfold ordinal_le. lia. Qed.

Lemma numbered_from_sorted (cols : list (string * string)) (k : nat) :
  Sorted ordinal_le (imap (fun i col => (k + i, col)) cols).
Proof.
  revert k. induction cols as [|col cols IH]; intros k; [constructor|].
  rewrite imap_cons.
  rewrite (imap_ext _ (fun i col => (S k + i, col))).
  2:{ intros i x _. simpl. f_equal. lia. }
  constructor; [apply IH|].
  destruct cols; [constructor|]. rewrite imap_cons. constructor.
  unfold ordinal_le. simpl. lia.
Qed.

(** The columns of one relation come out in the order of their
    definition. *)
Lemma sort_numbered (cols : list (string * string)) :
  merge_sort ordinal_le (imap (fun i col => (S i, col)) cols)
  = imap (fun i col => (S i, col)) cols.
Proof.
  apply (Sorted_unique_strong ordinal_le).
  - intros x1 x2 Hx1 Hx2 H12 H21.
    rewrite merge_sort_Permutation in Hx1.
    apply list_elem_of_lookup in Hx1 as [i1 Hi1], Hx2 as [i2 Hi2].
    rewrite list_lookup_imap in Hi1, Hi2.
    destruct (cols !! i1) as [col1|] eqn:E1; [|done].
    destruct (cols !! i2) as [col2|] eqn:E2; [|done].
    simplify_eq/=. unfold ordinal_le in *. simpl in *.
    assert (i1 = i2) as -> by lia. congruence.
  - apply Sorted_merge_sort. apply _.
  - apply (numbered_from_sorted cols 1).
  - apply merge_sort_Permutation.
Qed.

Lemma listed_columns_sole (c : list entry) (t : table) :
  data <$> filter (fun e => table_name e = "customers") c = [t] →
  listed_columns c = columns t.
Proof.
  intros Hsole. unfold listed_columns, select_columns, customers_columns.
  rewrite (list_fmap_compose data (fun t => imap (fun i col => (S i, col)) (columns t))).
  rewrite Hsole. cbn [fmap list_fmap mjoin list_join]. rewrite app_nil_r, sort_numbered.
  rewrite fmap_imap. rewrite (imap_ext _ (const id)) by done.
  by rewrite imap_const, list_fmap_id.
Qed.

Lemma column_index_own (cols : list (string * string)) (col : string * string) :
  col ∈ cols → is_Some (column_index cols col.1).
Proof.
  induction cols as [|[n ty] cols IH]; [by inversion 1|].
  intros Hin. simpl. destruct (String.eqb_spec n col.1); [by eexists|].
  apply elem_of_cons in Hin as [->|Hin]; [done|].
  by apply fmap_is_Some, IH.
Qed.

(** In a store with one relation of the name [customers] the sample
    section has the column names of the table, in the order of their
    definition, as its header, and at most five rows. *)
Lemma sample_section_of_sole_customers (filename : string) (w : fs)
    (orig p : string) (w0 : fs) (c : list entry) (t0 : table) :
  @_access_file D filename w = (Ok (orig, p), w0) →
  free_of "'" p → opened w0 = Some c → csv_files w0 !! p = Some t0 →
  let c' := create_if_absent t0 c in
  let t := customers_after t0 c in
  data <$> filter (fun e => table_name e = "customers") c' = [t] →
  Forall (fun col => free_of "034" col.1) (columns t) →
  ∃ (before : string) (sample : list (list pyval)),
    (@load_data D filename w).1
    = Ok {| result := before +:+ sample_section (fst <$> columns t) sample |}
    ∧ sample = take 5 (rows t) ∧ length sample ≤ 5.
Proof.
  intros Hacc Hp Hopen Hfile c' t Hsole Hplain.
  pose proof (listed_columns_sole c' t Hsole) as Hcols.
  rewrite (load_data_report filename w orig p w0 c t0 Hacc Hp Hopen Hfile).
  2:{ fold c' t. rewrite Hcols. unfold listed. rewrite Forall_forall in Hplain |- *.
      intros col Hin. split; [by apply Hplain | by apply column_index_own]. }
  fold c' t. unfold report. rewrite Hcols.
  eexists _, _. split_and!; [by rewrite <- app_assoc_str | done |].
  rewrite length_take. lia.
Qed.

(** *** Deleting the store *)

(** On the reference platform the connection that [cleanup] opens first
    creates the store file when it is missing: the did-not-exist message
    is never written. *)
Lemma cleanup_never_reports_missing (w : fs) :
  (@cleanup D w).1 ≠ Ok {| result := missing_msg |}.
Proof.
  destruct w as [[|[] [c|]] files chat out]; vm_compute; congruence.
Qed.

(** With a writable [data] directory both of two calls in a row report
    a deletion. *)
Lemma cleanup_twice_removes_twice (w : fs) (s : option (list entry)) :
  data_directory w = Dir true s →
  (@cleanup D w).1 = Ok {| result := removed_msg |}
  ∧ store_of (@cleanup D w).2 = None
  ∧ (@cleanup D (@cleanup D w).2).1 = Ok {| result := removed_msg |}.
Proof.
  destruct w as [dir files chat out]. simpl. intros ->. by destruct s.
Qed.

End Reference.

(** ** Worked examples *)

Section Closed.
Import Examples Cases.

#[local] Instance key_le_total : Total key_le.
Proof. intros a b. unfold key_le. lia. Qed.

(** C2. Without the directory [data] the connection fails before the
    [try] is entered, and [query] raises. *)
Theorem query_raises_without_data_dir :
  (@query engine "SELECT * FROM nonexistent" no_data_dir).1
  = Raise (io_error ("Cannot open file " +:+ DQ +:+ DB_PATH +:+ DQ
                       +:+ ": No such file or directory")).
Proof. reflexivity. Qed.

(** C3. Two calls of [cleanup] in a row on a store that exists: the
    first deletes the file, the second opens a connection, which puts
    an empty store file in its place, and reports a deletion too. *)
Theorem cleanup_twice_on_store :
  let first := @cleanup engine two_schemas in
  let second := @cleanup engine first.2 in
  first.1 = Ok {| result := removed_msg |}
  ∧ store_of first.2 = None
  ∧ second.1 = Ok {| result := removed_msg |}
  ∧ second.1 ≠ Ok {| result := missing_msg |}.
Proof. vm_compute. split_and!; congruence. Qed.

(** C6. The listing is not the list of [information_schema.tables],
    and not, as the docstring of [query] has it, a list of all tables in
    the database.  On a store with the tables [main.customers] and
    [archive.orders] the second is in [information_schema.tables] and
    the listing is that of [customers] alone; on a store whose only
    table is [archive.orders] the answer is that no tables were found
    in the database. *)
Theorem listing_omits_other_schemas :
  (opened two_schemas = Some two_schemas_catalog
   ∧ Entry "archive" "orders" "BASE TABLE" (Table [] [])
       ∈ information_schema_tables two_schemas_catalog
   ∧ (@query engine "" two_schemas).1
     = Ok {| result := render_tables [Entry "main" "customers" "BASE TABLE" visits] |}
   ∧ ¬ ∃ text : string,
         (@query engine "" two_schemas).1 = Ok {| result := text |}
         ∧ lists_all_tables text two_schemas_catalog)
  ∧ (opened archive_only = Some archive_catalog
     ∧ information_schema_tables archive_catalog
       = [Entry "archive" "orders" "BASE TABLE" (Table [] [])]
     ∧ (@query engine "" archive_only).1
       = Ok {| result := "Database Tables:" +:+ LF
                           +:+ "==================================================" +:+ LF
                           +:+ "No tables found in the database." +:+ LF |}).
Proof.
  split; split_and!; try done.
  - unfold information_schema_tables, two_schemas_catalog. set_solver.
  - intros (text & Hq & es & Htext & _ & Hperm).
    vm_compute in Hq. injection Hq as <-.
    symmetry in Hperm. apply Permutation_length_2_inv in Hperm as [-> | ->];
      vm_compute in Htext; discriminate.
Qed.

(** C7. With a second [customers] in another schema the header of the
    sample section is not the list of the table's columns. *)
Theorem shadowed_customers_header :
  find_customers shadowed_catalog = Some visits
  ∧ fst <$> columns visits = ["id"; "score"]
  ∧ (@load_data engine "report.csv" shadowed).1
    = Ok {| result :=
              load_msg "report.csv" 11
                +:+ schema_section key_le visits
                      [("id", "BIGINT"); ("id", "BIGINT"); ("score", "BIGINT")]
                +:+ sample_section ["id"; "id"; "score"] (take 5 (rows visits)) |}.
Proof. split_and!; [done..|]. vm_compute. reflexivity. Qed.

(** The report of a first load: [id] has ten distinct values and is not
    enumerated, [score] has nine and a NULL and is. *)
Example report_of_visits :
  (@load_data engine "report.csv" fresh).1
  = Ok {| result :=
      "Successfully loaded 11 rows from report.csv into table 'customers' in DuckDB database at data/customer_data.duckdb."
        +:+ LF +:+ LF
        +:+ "Schema Information:" +:+ LF
        +:+ "==================================================" +:+ LF
        +:+ "Column: id, Type: BIGINT" +:+ LF
        +:+ "Column: score, Type: BIGINT, Possible values: 10, 20, 30, 40, 50, 60, 70, 80, 90, None"
        +:+ LF +:+ LF
        +:+ "Sample Data (5 rows):" +:+ LF
        +:+ "==================================================" +:+ LF
        +:+ "id | score" +:+ LF
        +:+ "--------------------------------------------------" +:+ LF
        +:+ "3 | 70" +:+ LF
        +:+ "1 | 10" +:+ LF
        +:+ "3 | None" +:+ LF
        +:+ "2 | 20" +:+ LF
        +:+ "9 | 30" +:+ LF |}.
Proof. vm_compute. reflexivity. Qed.

Lemma query_blank_lists_tables_witness :
  Forall (fun c => isspace c = true) (chars blank_query)
  ∧ @query engine blank_query two_schemas = @query engine "" two_schemas
  ∧ @query engine blank_query two_schemas
    = (Ok {| result := listing_text [(PyStr "customers", PyStr "BASE TABLE")] |},
       two_schemas).
Proof.
  assert (Hblank : Forall (fun c => isspace c = true) (chars blank_query))
    by (by repeat constructor).
  destruct (@query_blank_lists_tables engine blank_query two_schemas Hblank)
    as (Heq & _ & _ & Hlist).
  split_and!; [done..|].
  apply (Hlist tt two_schemas two_schemas
           (Cursor [[PyStr "customers"; PyStr "BASE TABLE"]]
              (Some [PyStr "table_name"; PyStr "table_type"]))
           [(PyStr "customers", PyStr "BASE TABLE")]).
  - vm_compute. reflexivity.
  - vm_compute. reflexivity.
  - reflexivity.
Defined.

Lemma thread_id_of_missing_header_witness :
  return_my_thread_id bare_request = Ok {| result := "Thread id = None" |}.
Proof. apply (thread_id_of_missing_header bare_request). reflexivity. Defined.

Lemma access_file_falls_back_witness :
  (@_access_file no_match_engine "report.csv" no_file).1 = Ok ("report.csv", "report.csv")
  ∧ (@load_data no_match_engine "report.csv" no_file).1
    = Raise (io_error ("No files found that match the pattern "
                         +:+ DQ +:+ "report.csv" +:+ DQ)).
Proof.
  destruct (@access_file_falls_back no_match_engine "report.csv" no_file no_file
              (Exn "ActionError" "File not found: report.csv") eq_refl) as [Hacc Hload].
  split; [by rewrite Hacc|].
  by erewrite Hload.
Defined.

Lemma query_lists_main_tables_witness :
  ∃ text : string,
    (@query engine "" two_schemas).1 = Ok {| result := text |}
    ∧ lists_main_tables text two_schemas_catalog.
Proof. apply (query_lists_main_tables key_le no_sql two_schemas). reflexivity. Defined.

Lemma schema_enumerates_below_ten_witness :
  let c' := create_if_absent visits [] in
  let t := customers_after visits [] in
  ∃ lines : list string,
    (@load_data engine "report.csv" fresh).1
    = Ok {| result :=
              load_msg "report.csv" (length (rows t))
                +:+ (("Schema Information:" +:+ LF +:+ str_mul "=" 50 +:+ LF)
                       +:+ String.concat "" lines)
                +:+ sample_section (fst <$> listed_columns c') (take 5 (rows t)) |}
    ∧ Forall2 (fun col line => line_spec key_le col.1 col.2 (cells_of t col.1) line)
        (listed_columns c') lines.
Proof.
  eapply (schema_enumerates_below_ten key_le no_sql "report.csv" fresh
           "report.csv" "report.csv" _ [] visits).
  - reflexivity.
  - compute_done.
  - reflexivity.
  - reflexivity.
  - repeat constructor; try (by eexists); compute_done.
Defined.


End Closed.

(** * Further properties *)

(** ** On every platform *)

Lemma bind_inv {W A B} (c : M W A) (k : A -> M W B) (w w' : W) (b : B) :
  bind c k w = (Ok b, w') → ∃ a w1, c w = (Ok a, w1) ∧ k a w1 = (Ok b, w').
Proof.
  unfold bind. destruct (c w) as [[a|e] w1]; [|done]. intros H. by exists a, w1.
Qed.

Section More.
Context {P : Platform}.

(** [_access_file] returns in every world.  The name for display is
    the basename.  The path is the renamed staged file when the
    attachment was staged and renamed; it is the caller's own string,
    after the error [e] was printed, when staging raised [e] or the
    renaming of the staged file did, and in no other case. *)
Theorem access_file_always_returns (filename : string) (w : world) :
  ∃ (p : string) (w' : world),
    _access_file filename w = (Ok (path_name filename, p), w')
    ∧ ((∃ (staged : string) (w1 : world),
          chat_get_file (path_name filename) w = (Ok staged, w1)
          ∧ path_rename staged
              (path_join (path_parent staged)
                 (path_stem staged +:+ path_suffix filename)) w1
            = (Ok p, w'))
       ∨ (p = filename
          ∧ ∃ (e : exn) (w1 : world),
              w' = print ("Error getting file from chat - using filename as is: "
                            +:+ exn_text e) w1
              ∧ (chat_get_file (path_name filename) w = (Raise e, w1)
                 ∨ ∃ (staged : string) (w0 : world),
                     chat_get_file (path_name filename) w = (Ok staged, w0)
                     ∧ path_rename staged
                         (path_join (path_parent staged)
                            (path_stem staged +:+ path_suffix filename)) w0
                       = (Raise e, w1)))).
Proof.
  unfold _access_file, bind at 1, try_except, bind at 1.
  destruct (chat_get_file (path_name filename) w) as [[staged|e] w1] eqn:Hget.
  - destruct (path_rename staged _ w1) as [[p|e] w2] eqn:Hren.
    + exists p, w2. split; [done|]. left. by exists staged, w1.
    + eexists _, _. split; [done|]. right. split; [done|]. exists e, w2.
      split; [done|]. right. by exists staged, w1.
  - eexists _, _. split; [done|]. right. split; [done|]. exists e, w1.
    split; [done|]. by left.
Qed.

Lemma access_file_ok (filename : string) (w : world) :
  ∃ p, _access_file filename w = (Ok (path_name filename, p), (_access_file filename w).2).
Proof.
  unfold _access_file, bind, try_except.
  destruct (chat_get_file (path_name filename) w) as [[staged|e] w1];
    [|simpl; by eexists].
  destruct (path_rename staged _ w1) as [[p|e] w2]; simpl; by eexists.
Qed.

(** [load_data] has no handler: when the store cannot be opened the
    exception of [duckdb.connect] is the exception of [load_data]. *)
Theorem load_data_raises_connect_error (filename : string) (w w2 : world) (e : exn) :
  duckdb_connect DB_PATH (_access_file filename w).2 = (Raise e, w2) →
  load_data filename w = (Raise e, w2).
Proof.
  intros Hcon. destruct (access_file_ok filename w) as [p Hacc].
  unfold load_data. rewrite (bind_ok _ _ _ _ _ Hacc).
  by apply bind_raise.
Qed.

Lemma schema_column_extends (con : connection) (table info info' : string)
    (col : list pyval) (w w' : world) :
  schema_column con table info col w = (Ok info', w') →
  ∃ rest : string, info' = info +:+ rest.
Proof.
  unfold schema_column. intros H.
  apply bind_inv in H as ([name type] & w1 & _ & H). cbn [fst snd] in H.
  apply bind_inv in H as (cur & w2 & _ & H).
  apply bind_inv in H as (n & w3 & _ & H).
  apply bind_inv in H as ([] & w4 & _ & H).
  - apply bind_inv in H as (s & w5 & H & Hret).
    apply bind_inv in H as (cur' & w6 & _ & H).
    apply bind_inv in H as (texts & w7 & _ & H).
    injection H as <- _. injection Hret as <- _.
    eexists. by rewrite !app_assoc_str.
  - apply bind_inv in H as (s & w5 & H & Hret).
    injection H as <- _. injection Hret as <- _.
    eexists. by rewrite !app_assoc_str.
Qed.

Lemma schema_loop_extends (con : connection) (table : string) (cols : list (list pyval))
    (info info' : string) (w w' : world) :
  for_each (schema_column con table) cols info w = (Ok info', w') →
  ∃ rest : string, info' = info +:+ rest.
Proof.
  revert info w. induction cols as [|col cols IH]; intros info w H.
  - injection H as <- _. exists "". by rewrite app_empty_r.
  - cbn [for_each] in H. apply bind_inv in H as (s & w1 & Hcol & H).
    apply schema_column_extends in Hcol as [r1 ->].
    apply IH in H as [r2 ->]. eexists. by rewrite app_assoc_str.
Qed.

(** Every report of [load_data] opens with the same sentence: the count
    that the engine returned, the basename of the file as the caller
    named it (not the path that was read), the table and the store. *)
Theorem load_report_names_basename (filename : string) (w w' : world) (r : Response) :
  load_data filename w = (Ok r, w') →
  ∃ (count : pyval) (rest : string),
    result r
    = "Successfully loaded " +:+ str count +:+ " rows from " +:+ path_name filename
        +:+ " into table 'customers' in DuckDB database at data/customer_data.duckdb."
        +:+ LF +:+ LF +:+ "Schema Information:" +:+ LF +:+ str_mul "=" 50 +:+ LF
        +:+ rest.
Proof.
  intros H. destruct (access_file_ok filename w) as [p Hacc].
  unfold load_data in H. rewrite (bind_ok _ _ _ _ _ Hacc) in H. cbn [fst snd] in H.
  apply bind_inv in H as (con & w1 & _ & H).
  apply bind_inv in H as (cur0 & w2 & _ & H).
  apply bind_inv in H as (cur1 & w3 & _ & H).
  apply bind_inv in H as (count & w4 & _ & H).
  apply bind_inv in H as (cur2 & w5 & _ & H).
  apply bind_inv in H as (info & w6 & Hloop & H).
  apply bind_inv in H as (cur3 & w7 & _ & H).
  apply bind_inv in H as (names & w8 & _ & H).
  apply bind_inv in H as (header & w9 & _ & H).
  injection H as <- _. cbn [result].
  apply schema_loop_extends in Hloop as [rest ->].
  exists count. eexists. rewrite !app_assoc_str. reflexivity.
Qed.

(** What [query] writes for a statement that the engine ran: the text
    of the statement as the caller gave it, the number of rows, and
    then the column names over one line per row, or the no-rows line. *)
Theorem query_formats_result (sql_query : string) (w w1 w2 : world)
    (con : connection) (cur : cursor) (names : list string) :
  ¬ Forall (fun c => isspace c = true) (chars sql_query) →
  duckdb_connect DB_PATH w = (Ok con, w1) →
  con_execute con sql_query w1 = (Ok cur, w2) →
  description cur = Some (PyStr <$> names) →
  query sql_query w
  = (Ok {| result :=
       ("Query Results:" +:+ LF +:+ str_mul "=" 50 +:+ LF
          +:+ "Executed query: " +:+ sql_query +:+ LF +:+ LF
          +:+ "Returned " +:+ pretty (length (fetchall cur)) +:+ " rows" +:+ LF +:+ LF)
         +:+ match fetchall cur with
             | [] => "No rows returned." +:+ LF
             | _ :: _ =>
                 String.concat " | " names +:+ LF +:+ str_mul "-" 50 +:+ LF
                   +:+ String.concat "" (row_text <$> fetchall cur)
             end |}, w2).
Proof.
  intros Hblank Hcon Hex Hdesc. rewrite <- strip_empty in Hblank.
  unfold query. rewrite (bind_ok _ _ _ _ _ Hcon). unfold try_except.
  destruct (strip sql_query) eqn:Hs; [done|]. cbn [truthy negb].
  rewrite (bind_ok _ _ _ _ _ Hex). cbn zeta.
  unfold description_names. rewrite Hdesc. unfold bind at 1, lift at 1.
  destruct (fetchall cur) as [|row rows] eqn:Hrows.
  - unfold bind, ret. by rewrite !app_assoc_str.
  - rewrite join_strings. unfold bind, lift, ret.
    rewrite fold_row_line. by rewrite !app_assoc_str.
Qed.

End More.

(** Two requests get the same answer exactly when their thread headers
    agree, a missing header counting as the value [None]: the answer
    does not tell a request without the header from one whose header
    is the text [None]. *)
Theorem thread_id_answers_agree (r1 r2 : Request) :
  return_my_thread_id r1 = return_my_thread_id r2
  ↔ default "None" (headers r1 !! "X-INVOKED_FOR_THREAD_ID")
    = default "None" (headers r2 !! "X-INVOKED_FOR_THREAD_ID").
Proof.
  unfold return_my_thread_id, headers_get.
  destruct (headers r1 !! _) as [v1|], (headers r2 !! _) as [v2|]; simpl;
    (split; [intros H; try done; injection H as H; by apply (inj (String.app _)) in H
            | intros ?; by simplify_eq]).
Qed.

(** ** Paths *)

Lemma chars_inj (s t : string) : chars s = chars t → s = t.
Proof.
  intros H. rewrite <- (String.string_of_list_ascii_of_string s),
    <- (String.string_of_list_ascii_of_string t). unfold chars in H. by rewrite H.
Qed.

Lemma rev_rev (s : string) : String.rev (String.rev s) = s.
Proof. apply chars_inj. by rewrite !chars_rev, reverse_involutive. Qed.

Lemma rev_app_str (s t : string) :
  String.rev (s +:+ t) = String.rev t +:+ String.rev s.
Proof. apply chars_inj. by rewrite chars_rev, !chars_app, !chars_rev, reverse_app. Qed.

Lemma free_of_rev (q : ascii) (s : string) : free_of q (String.rev s) ↔ free_of q s.
Proof. unfold free_of. by rewrite chars_rev, elem_of_reverse. Qed.

Lemma free_of_app (q : ascii) (s t : string) :
  free_of q (s +:+ t) ↔ free_of q s ∧ free_of q t.
Proof. unfold free_of. rewrite chars_app, not_elem_of_app. done. Qed.

(** [until] splits at the first [q]. *)
Lemma until_Some (q : ascii) (s a b : string) :
  until q s = Some (a, b) → free_of q a ∧ s = a +:+ String q b.
Proof.
  unfold free_of. revert a. induction s as [|c s IH]; intros a; simpl; [done|].
  destruct (Ascii.eqb_spec c q) as [->|Hne].
  - intros [= <- <-]. split; [by apply not_elem_of_nil | done].
  - destruct (until q s) as [[a' b']|]; [|done]. intros [= <- <-].
    destruct (IH a' eq_refl) as [Hfree ->]. split; [|done].
    simpl. apply not_elem_of_cons. done.
Qed.

(** The suffix of a name is empty or a dot and an extension without a
    dot; stem and suffix are made of characters of the name. *)
Lemma split_suffix_shape (name : string) :
  (∀ q, free_of q name → free_of q (split_suffix name).1)
  ∧ ((split_suffix name).2 = ""
     ∨ ∃ ext, (split_suffix name).2 = "." +:+ ext ∧ ext ≠ "" ∧ free_of "." ext
              ∧ ∀ q, free_of q name → free_of q ext).
Proof.
  unfold split_suffix. destruct (until "." (String.rev name)) as [[a b]|] eqn:Hu.
  2:{ cbn [fst snd]. split; [auto | by left]. }
  apply until_Some in Hu as [Hfree Hname].
  assert (Hsub : ∀ q, free_of q name → free_of q a ∧ free_of q b).
  { intros q Hq. apply free_of_rev in Hq. rewrite Hname in Hq.
    apply free_of_app in Hq as [Ha Hb]. split; [done|].
    unfold free_of in *. simpl in Hb. by apply not_elem_of_cons in Hb as [_ Hb]. }
  destruct a as [|c ext]; [cbn [fst snd]; split; [auto | by left]|].
  destruct b as [|d stem]; [cbn [fst snd]; split; [auto | by left]|].
  cbn [fst snd]. split.
  - intros q Hq. apply free_of_rev. by apply Hsub.
  - right. exists (String.rev (String c ext)). split_and!; [done| | |].
    + intros H. by apply (proj1 (rev_empty _)) in H.
    + by apply free_of_rev.
    + intros q Hq. apply free_of_rev. by apply Hsub.
Qed.

(** A stem and an extension put together split again into the two. *)
Lemma split_suffix_join (stem ext : string) :
  stem ≠ "" → ext ≠ "" → free_of "." ext →
  split_suffix (stem +:+ "." +:+ ext) = (stem, "." +:+ ext).
Proof.
  intros Hstem Hext Hfree. unfold split_suffix.
  replace (String.rev (stem +:+ "." +:+ ext))
    with (String.rev ext +:+ String "." (String.rev stem)).
  2:{ rewrite rev_app_str. change ("." +:+ ext) with (String "." "" +:+ ext).
      rewrite rev_app_str. by rewrite app_assoc_str. }
  rewrite until_free by by apply free_of_rev.
  destruct (String.rev ext) as [|c e] eqn:He; [by apply (proj1 (rev_empty _)) in He|].
  destruct (String.rev stem) as [|d s] eqn:Hs; [by apply (proj1 (rev_empty _)) in Hs|].
  by rewrite <- He, <- Hs, !rev_rev.
Qed.

Lemma split_on_free (sep : ascii) (s : string) :
  free_of sep s → split_on sep s = [s].
Proof.
  unfold free_of. induction s as [|c s IH]; [done|]. simpl.
  intros [Hne Hfree]%not_elem_of_cons.
  destruct (Ascii.eqb_spec c sep) as [->|_]; [done|]. by rewrite IH.
Qed.

Lemma split_on_app (sep : ascii) (a b : string) :
  free_of sep a → split_on sep (a +:+ String sep b) = a :: split_on sep b.
Proof.
  unfold free_of. induction a as [|c a IH]; simpl.
  - intros _. by rewrite Ascii.eqb_refl.
  - intros [Hne Hfree]%not_elem_of_cons.
    destruct (Ascii.eqb_spec c sep) as [->|_]; [done|]. by rewrite IH.
Qed.

Lemma split_on_pieces (sep : ascii) (s : string) :
  Forall (free_of sep) (split_on sep s).
Proof.
  unfold free_of. induction s as [|c s IH]; simpl.
  - constructor; [apply not_elem_of_nil | constructor].
  - destruct (Ascii.eqb_spec c sep) as [->|Hne].
    + constructor; [apply not_elem_of_nil | done].
    + destruct (split_on sep s) as [|h t]; simpl.
      * constructor; [|constructor]. simpl. apply not_elem_of_cons.
        split; [done | apply not_elem_of_nil].
      * inversion IH; subst. constructor; [|done]. simpl.
        apply not_elem_of_cons. done.
Qed.

Lemma split_on_concat (sep : ascii) (qs : list string) :
  qs ≠ [] → Forall (free_of sep) qs →
  split_on sep (String.concat (String sep "") qs) = qs.
Proof.
  induction qs as [|q qs IH]; [done|]. intros _ Hfree.
  apply Forall_cons in Hfree as [Hq Hqs].
  destruct qs as [|q' qs]; [by apply split_on_free|].
  change (String.concat (String sep "") (q :: q' :: qs))
    with (q +:+ String sep "" +:+ String.concat (String sep "") (q' :: qs)).
  change (String sep "" +:+ ?x) with (String sep x).
  rewrite split_on_app by done. f_equal. by apply IH.
Qed.

(** A component of a path: no separator in it, and neither empty nor
    the dot. *)
Local Abbreviation component :=
  (fun x : string => free_of "/" x ∧ x ≠ "" ∧ x ≠ ".").

Lemma parts_components (p : string) : Forall component (parts p).
Proof.
  unfold parts. apply Forall_forall. intros x [Hx Hin]%list_elem_of_filter.
  split; [|done].
  by apply (proj1 (Forall_forall _ _) (split_on_pieces "/" p)).
Qed.

Lemma filter_components (qs : list string) :
  Forall component qs → filter (fun x => x ≠ "" ∧ x ≠ ".") qs = qs.
Proof.
  induction 1 as [|q qs [_ Hq] _ IH]; [done|].
  rewrite filter_cons_True by done. by rewrite IH.
Qed.

Lemma parts_path_str (absolute : bool) (qs : list string) :
  Forall component qs → parts (path_str absolute qs) = qs.
Proof.
  intros Hqs. destruct qs as [|q qs]; [by destruct absolute|].
  unfold parts, path_str.
  assert (Hsplit : split_on "/" (String.concat "/" (q :: qs)) = q :: qs).
  { apply split_on_concat; [done|]. eapply Forall_impl; [done|]. by intros ? [? _]. }
  destruct absolute.
  - change ("/" +:+ ?x) with (String "/" x). cbn [split_on Ascii.eqb Bool.eqb].
    simpl Ascii.eqb. cbn iota. rewrite Hsplit.
    rewrite filter_cons_False by (intros [? _]; done).
    by apply filter_components.
  - rewrite app_empty_l, Hsplit. by apply filter_components.
Qed.

Lemma component_not_absolute (q rest : string) :
  component q → is_absolute (q +:+ rest) = false.
Proof.
  intros (Hfree & Hne & _). destruct q as [|c q]; [done|].
  rewrite app_cons. unfold free_of in Hfree. simpl in Hfree.
  apply not_elem_of_cons in Hfree as [Hc _].
  simpl. destruct c as [[] [] [] [] [] [] [] []]; try done.
Qed.

Lemma is_absolute_path_str (absolute : bool) (qs : list string) :
  Forall component qs → is_absolute (path_str absolute qs) = absolute.
Proof.
  intros Hqs. destruct qs as [|q qs]; [by destruct absolute|].
  unfold path_str. destruct absolute; [done|]. rewrite app_empty_l.
  apply Forall_cons in Hqs as [Hq _].
  destruct qs as [|q' qs].
  - rewrite <- (app_empty_r q). by apply component_not_absolute.
  - change (String.concat "/" (q :: q' :: qs))
      with (q +:+ "/" +:+ String.concat "/" (q' :: qs)).
    by apply component_not_absolute.
Qed.

Lemma removelast_elem_of {A} (x : A) (l : list A) : x ∈ removelast l → x ∈ l.
Proof.
  induction l as [|y l IH]; [done|]. simpl. destruct l as [|z l]; [by inversion 1|].
  intros [->|Hin]%elem_of_cons; [by left | right; by apply IH].
Qed.

(** The new path of a staged file: the directory and the stem of the
    staged file, the extension of the requested name. *)
Lemma renamed_path (staged filename : string) :
  posix_stem staged ≠ "" → posix_suffix filename ≠ "" →
  let p := posix_join (posix_parent staged)
             (posix_stem staged +:+ posix_suffix filename) in
  posix_suffix p = posix_suffix filename
  ∧ posix_stem p = posix_stem staged
  ∧ posix_parent p = posix_parent staged.
Proof.
  intros Hstem Hsuf p.
  (* the name of the staged file is free of separators *)
  assert (Hname : free_of "/" (posix_name staged)).
  { unfold posix_name. destruct (last (parts staged)) as [x|] eqn:Hlast; [|by apply not_elem_of_nil].
    apply last_Some_elem_of in Hlast.
    by apply (proj1 (Forall_forall _ _) (parts_components staged)) in Hlast as [? _]. }
  assert (Hname' : free_of "/" (posix_name filename)).
  { unfold posix_name. destruct (last (parts filename)) as [x|] eqn:Hlast; [|by apply not_elem_of_nil].
    apply last_Some_elem_of in Hlast.
    by apply (proj1 (Forall_forall _ _) (parts_components filename)) in Hlast as [? _]. }
  destruct (split_suffix_shape (posix_name staged)) as [Hstem_free _].
  destruct (split_suffix_shape (posix_name filename)) as [_ [Hnil|(ext & Hext & Hne & Hdot & Hext_free)]];
    [done|].
  fold (posix_stem staged) in Hstem_free. fold (posix_suffix filename) in Hext.
  set (stem := posix_stem staged) in *. set (n := stem +:+ posix_suffix filename) in *.
  assert (Hn : component n).
  { unfold n. rewrite Hext. split_and!.
    - apply free_of_app. split; [by apply Hstem_free|].
      apply free_of_app. split; [|by apply Hext_free].
      unfold free_of. simpl. apply not_elem_of_cons. split; [done | apply not_elem_of_nil].
    - destruct stem; [done|]. by rewrite app_cons.
    - destruct stem as [|c [|c' s]]; [done| |]; rewrite ?app_cons; [|done].
      simpl. done. }
  assert (Hinit : Forall component (removelast (parts staged))).
  { apply Forall_forall. intros x Hin. apply removelast_elem_of in Hin.
    by apply (proj1 (Forall_forall _ _) (parts_components staged)). }
  assert (Hp : p = path_str (is_absolute staged) (removelast (parts staged) ++ [n])).
  { unfold p, posix_join, posix_parent. fold n.
    rewrite <- (app_empty_r n) at 1. rewrite (component_not_absolute n "" Hn).
    rewrite is_absolute_path_str, parts_path_str by done.
    f_equal. f_equal. unfold parts. rewrite split_on_free by apply Hn.
    by rewrite filter_cons_True by apply Hn. }
  assert (Hparts : parts p = removelast (parts staged) ++ [n]).
  { rewrite Hp. apply parts_path_str. apply Forall_app. split; [done|]. by constructor. }
  assert (Hpname : posix_name p = n).
  { unfold posix_name. by rewrite Hparts, last_snoc. }
  assert (Hsplit : split_suffix n = (stem, posix_suffix filename)).
  { unfold n. rewrite Hext. by apply split_suffix_join. }
  split_and!.
  - unfold posix_suffix at 1. by rewrite Hpname, Hsplit.
  - unfold posix_stem at 1. by rewrite Hpname, Hsplit.
  - unfold posix_parent at 1. rewrite Hparts, removelast_last.
    rewrite Hp, is_absolute_path_str; [done|].
    apply Forall_app. split; [done|]. by constructor.
Qed.

(** ** On the reference platform *)

Lemma for_each_app {W A B} (body : B -> A -> M W B) (xs ys : list A) (acc : B) (w : W) :
  for_each body (xs ++ ys) acc w = bind (for_each body xs acc) (for_each body ys) w.
Proof.
  revert acc w. induction xs as [|x xs IH]; intros acc w; [reflexivity|].
  rewrite <- app_comm_cons. cbn [for_each]. unfold bind.
  destruct (body acc x w) as [[b|e] w1]; [|done].
  apply IH.
Qed.

Lemma find_customers_none (c : list entry) :
  filter (fun e => table_name e = "customers") c = [] → find_customers c = None.
Proof.
  unfold find_customers. induction c as [|e c IH]; [done|].
  rewrite filter_cons. case_decide as Hn; [done|]. intros Hf. simpl.
  destruct (String.eqb_spec (table_name e) "customers"); [done|].
  rewrite andb_false_r. by apply IH.
Qed.

(** A catalog without a relation named [customers] gets the file as its
    table, and the schema query then lists the columns of the file. *)
Lemma create_in_catalog_without_customers (t0 : table) (c : list entry) :
  filter (fun e => table_name e = "customers") c = [] →
  create_if_absent t0 c = c ++ [Entry "main" "customers" "BASE TABLE" t0]
  ∧ customers_after t0 c = t0
  ∧ listed_columns (create_if_absent t0 c) = columns t0.
Proof.
  intros Hnone. pose proof (find_customers_none c Hnone) as Hfind.
  unfold create_if_absent, customers_after. rewrite Hfind. split_and!; [done..|].
  apply listed_columns_sole. by rewrite filter_app, Hnone.
Qed.

Lemma listed_own_columns (t : table) :
  Forall (fun col => free_of "034" col.1) (columns t) → listed t (columns t).
Proof.
  unfold listed. rewrite !Forall_forall. intros H col Hin.
  split; [by apply H | by apply column_index_own].
Qed.

Section ReferenceMore.
Context (sql_le : relation pyval) `{!RelDecision sql_le}.
Context (user_sql : string -> M fs cursor).

Local Abbreviation D := (duck sql_le user_sql).
Local Abbreviation exec := (execute sql_le user_sql tt).

(** An attachment of the chat is staged and then moved: the path that
    [_access_file] returns holds its content, the staged path is gone,
    no other file and nothing of the store is touched. *)
Theorem access_file_moves_attachment (filename staged : string) (t : table) (w : fs) :
  chat_files w !! posix_name filename = Some (staged, t) →
  ∃ (p : string) (w' : fs),
    @_access_file D filename w = (Ok (posix_name filename, p), w')
    ∧ csv_files w' !! p = Some t
    ∧ (p ≠ staged → csv_files w' !! staged = None)
    ∧ (∀ q, q ≠ p → q ≠ staged → csv_files w' !! q = csv_files w !! q)
    ∧ data_directory w' = data_directory w
    ∧ stdout w' = stdout w.
Proof.
  intros Hchat. rewrite access_file_duck, Hchat. cbn zeta.
  eexists _, _. split; [done|]. cbn [csv_files set_csv_files data_directory stdout].
  split_and!; [| | |done..].
  - apply lookup_insert_eq.
  - intros Hne. by rewrite lookup_insert_ne, lookup_delete_eq.
  - intros q Hp Hs. by rewrite lookup_insert_ne, lookup_delete_ne, lookup_insert_ne.
Qed.


(** A load into a store without a relation named [customers] makes the
    file the table: the report gives the rows of the file, a line for
    each of its columns in the order of the file, and its first five
    rows under its column names. *)
Theorem load_imports_file (filename : string) (w : fs)
    (orig p : string) (w0 : fs) (c : list entry) (t0 : table) :
  @_access_file D filename w = (Ok (orig, p), w0) →
  free_of "'" p → opened w0 = Some c → csv_files w0 !! p = Some t0 →
  filter (fun e => table_name e = "customers") c = [] →
  Forall (fun col => free_of "034" col.1) (columns t0) →
  @load_data D filename w
  = (Ok {| result :=
             load_msg orig (length (rows t0))
               +:+ schema_section sql_le t0 (columns t0)
               +:+ sample_section (fst <$> columns t0) (take 5 (rows t0)) |},
     set_store (Some (c ++ [Entry "main" "customers" "BASE TABLE" t0])) w0).
Proof.
  intros Hacc Hp Hopen Hfile Hnone Hplain.
  destruct (create_in_catalog_without_customers t0 c Hnone) as (Hc & Ht & Hcols).
  pose proof (load_data_report sql_le user_sql filename w orig p w0 c t0
                Hacc Hp Hopen Hfile) as Hload.
  unfold report in Hload. rewrite Hcols, Ht in Hload. rewrite Hc in Hload.
  apply Hload. by apply listed_own_columns.
Qed.

(** After such a load the table listing of [query] has the new table. *)
Theorem listing_has_loaded_table (filename : string) (w : fs)
    (orig p : string) (w0 : fs) (c : list entry) (t0 : table) :
  @_access_file D filename w = (Ok (orig, p), w0) →
  free_of "'" p → opened w0 = Some c → csv_files w0 !! p = Some t0 →
  filter (fun e => table_name e = "customers") c = [] →
  Forall (fun col => free_of "034" col.1) (columns t0) →
  ∃ es : list entry,
    (@query D "" (@load_data D filename w).2).1 = Ok {| result := render_tables es |}
    ∧ Entry "main" "customers" "BASE TABLE" t0 ∈ es
    ∧ Sorted name_le es.
Proof.
  intros Hacc Hp Hopen Hfile Hnone Hplain.
  destruct (create_in_catalog_without_customers t0 c Hnone) as (Hc & Ht & Hcols).
  rewrite (load_data_report sql_le user_sql filename w orig p w0 c t0 Hacc Hp Hopen Hfile).
  2:{ rewrite Hcols, Ht. by apply listed_own_columns. }
  rewrite Hc. cbn [snd].
  rewrite (query_empty_listing sql_le user_sql _ (c ++ [Entry "main" "customers" "BASE TABLE" t0])).
  2:{ apply opened_set_store. by apply (opened_dir w0 c). }
  eexists. split_and!; [done| |].
  - unfold select_tables. rewrite merge_sort_Permutation, list_elem_of_filter.
    split; [done|]. unfold information_schema_tables. set_solver.
  - apply Sorted_merge_sort. intros a b. unfold name_le. apply String.leb_total.
Qed.

(** [cleanup] in a writable directory deletes the store file and leaves
    every other file alone.  A table listing right after it finds no
    tables, and puts an empty store file back. *)
Theorem cleanup_deletes_store (w : fs) (s : option (list entry)) :
  data_directory w = Dir true s →
  let w1 := (@cleanup D w).2 in
  store_of w1 = None
  ∧ csv_files w1 = csv_files w ∧ chat_files w1 = chat_files w
  ∧ (@query D "" w1).1 = Ok {| result := render_tables [] |}
  ∧ store_of (@query D "" w1).2 = Some [].
Proof.
  destruct w as [dir files chat out]. simpl. intros ->. by destruct s.
Qed.



(** The schema query takes the columns of every relation named
    [customers]; a column among them that the table of the schema [main]
    does not have stops the load at its line, with the error of the
    engine. *)
Theorem load_fails_on_foreign_column (filename : string) (w : fs)
    (orig p : string) (w0 : fs) (c : list entry) (t0 : table)
    (before after : list (string * string)) (col : string * string) :
  @_access_file D filename w = (Ok (orig, p), w0) →
  free_of "'" p → opened w0 = Some c → csv_files w0 !! p = Some t0 →
  let c' := create_if_absent t0 c in
  let t := customers_after t0 c in
  listed_columns c' = before ++ col :: after →
  listed t before →
  free_of "034" col.1 → column_index (columns t) col.1 = None →
  @load_data D filename w = (Raise (no_column col.1), set_store (Some c') w0).
Proof.
  intros Hacc Hp Hopen Hfile c' t Hcols Hbefore Hcol Hmissing.
  pose proof (opened_dir w0 c Hopen) as Hdir.
  assert (Hs1 : store_of (set_store (Some c) w0) = Some c)
    by by apply store_of_set_store.
  assert (Hs2 : store_of (set_store (Some c') w0) = Some c')
    by by apply store_of_set_store.
  assert (Ht : find_customers c' = Some t) by apply find_customers_create.
  destruct (execute_create sql_le user_sql p (set_store (Some c) w0) c t0 Hp Hs1)
    as [cur1 Hcreate].
  { by rewrite csv_files_set_store. }
  rewrite set_store_twice in Hcreate. fold c' in Hcreate.
  destruct (execute_count_rows sql_le user_sql _ c' t Hs2 Ht) as [d2 Hcount].
  destruct (execute_schema_query sql_le user_sql _ c' Hs2) as [d3 Hschema].
  unfold listed_columns in Hcols.
  apply fmap_app_inv in Hcols as (ocs1 & ocs & Hb & Hrest & Hsel).
  symmetry in Hrest. apply fmap_cons_inv in Hrest as (oc & ocs2 & Hoc & Ha & ->).
  unfold load_data.
  rewrite (bind_ok _ _ _ _ _ Hacc). cbn [fst snd].
  rewrite (bind_ok _ _ _ _ _ (connect_opened w0 c Hopen)).
  rewrite (bind_ok _ _ _ _ _ Hcreate).
  rewrite (bind_ok _ _ _ _ _ Hcount).
  cbn [fetchone fetchall head subscript_opt subscript lookup list_lookup].
  rewrite bind_lift_ok.
  rewrite (bind_ok _ _ _ _ _ Hschema). cbn [fetchall].
  apply bind_raise. rewrite Hsel, fmap_app, for_each_app.
  rewrite (bind_ok _ _ _ _ _ (schema_loop sql_le user_sql _ c' t ocs1 _ Hs2 Ht
                                 ltac:(by rewrite <- Hb))).
  rewrite fmap_cons. cbn [for_each]. apply bind_raise.
  destruct oc as [i [name type]]. simpl in Hoc. subst col. cbn [fst snd] in *.
  unfold schema_column, columns_row. cbn [unpack2 fst snd]. rewrite bind_lift_ok.
  cbn [fst snd str].
  apply bind_raise. cbn. unfold execute, run, on_column.
  by rewrite Hs2, (parse_count_distinct name Hcol), Ht, Hmissing.
Qed.

(** The attachment is handed to the engine under the extension of the
    name that was asked for: the new path keeps the directory and the
    stem of the staged file and ends with the suffix of the request. *)
Theorem access_file_keeps_extension (filename staged : string) (t : table) (w : fs) :
  chat_files w !! posix_name filename = Some (staged, t) →
  posix_stem staged ≠ "" → posix_suffix filename ≠ "" →
  ∃ (p : string) (w' : fs),
    @_access_file D filename w = (Ok (posix_name filename, p), w')
    ∧ csv_files w' !! p = Some t
    ∧ posix_suffix p = posix_suffix filename
    ∧ posix_stem p = posix_stem staged
    ∧ posix_parent p = posix_parent staged.
Proof.
  intros Hchat Hstem Hsuf. rewrite access_file_duck, Hchat. cbn zeta.
  eexists _, _. split; [done|]. split; [apply lookup_insert_eq|].
  by apply renamed_path.
Qed.

End ReferenceMore.

(** ** Worked cases *)

Section WorkedCases.
Import Examples Cases.

Lemma load_data_raises_connect_error_witness :
  (@load_data engine "report.csv" no_data_dir).1
  = Raise (io_error ("Cannot open file " +:+ DQ +:+ DB_PATH +:+ DQ
                       +:+ ": No such file or directory")).
Proof.
  by erewrite (@load_data_raises_connect_error engine "report.csv" no_data_dir).
Defined.

Lemma load_report_names_basename_witness :
  ∃ (r : Response) (count : pyval) (rest : string),
    (@load_data engine "/srv/in/report.csv" nested).1 = Ok r
    ∧ result r
      = "Successfully loaded " +:+ str count +:+ " rows from " +:+ "report.csv"
          +:+ " into table 'customers' in DuckDB database at data/customer_data.duckdb."
          +:+ LF +:+ LF +:+ "Schema Information:" +:+ LF +:+ str_mul "=" 50 +:+ LF
          +:+ rest.
Proof.
  destruct (@load_data engine "/srv/in/report.csv" nested) as [[r|e] w'] eqn:H;
    [|by vm_compute in H].
  destruct (@load_report_names_basename engine _ _ _ _ H) as (count & rest & Hr).
  by exists r, count, rest.
Defined.

Lemma query_formats_result_witness :
  (@query one_row_engine "SELECT id, name FROM people" two_schemas).1
  = Ok {| result :=
       ("Query Results:" +:+ LF +:+ str_mul "=" 50 +:+ LF
          +:+ "Executed query: " +:+ "SELECT id, name FROM people" +:+ LF +:+ LF
          +:+ "Returned " +:+ "1" +:+ " rows" +:+ LF +:+ LF)
         +:+ ("id | name" +:+ LF +:+ str_mul "-" 50 +:+ LF +:+ "7 | Ann" +:+ LF) |}.
Proof.
  rewrite (@query_formats_result one_row_engine "SELECT id, name FROM people"
             two_schemas two_schemas two_schemas tt
             (Cursor [[PyInt 7; PyStr "Ann"]] (Some [PyStr "id"; PyStr "name"]))
             ["id"; "name"]).
  - vm_compute. reflexivity.
  - by inversion 1.
  - reflexivity.
  - reflexivity.
  - reflexivity.
Defined.

Lemma query_executes_text_witness :
  (@query engine "SELEC 1" two_schemas).1
  = Ok {| result := "Error executing query: Parser Error: syntax error" |}.
Proof.
  rewrite (@query_executes_text engine "SELEC 1" two_schemas two_schemas tt
             (Exn "ParserException" "Parser Error: syntax error") two_schemas).
  - reflexivity.
  - by inversion 1.
  - reflexivity.
  - reflexivity.
Defined.

Lemma access_file_moves_attachment_witness :
  ∃ (p : string) (w' : fs),
    @_access_file engine "data/in/report.csv" attached = (Ok ("report.csv", p), w')
    ∧ csv_files w' !! p = Some visits
    ∧ (p ≠ "/tmp/upload-17" → csv_files w' !! "/tmp/upload-17" = None)
    ∧ (∀ q, q ≠ p → q ≠ "/tmp/upload-17" → csv_files w' !! q = csv_files attached !! q)
    ∧ data_directory w' = data_directory attached
    ∧ stdout w' = stdout attached.
Proof.
  apply (access_file_moves_attachment key_le no_sql "data/in/report.csv"
           "/tmp/upload-17" visits attached).
  reflexivity.
Defined.

Lemma access_file_keeps_extension_witness :
  ∃ (p : string) (w' : fs),
    @_access_file engine "data/in/report.csv" attached = (Ok ("report.csv", p), w')
    ∧ csv_files w' !! p = Some visits
    ∧ posix_suffix p = ".csv"
    ∧ posix_stem p = "upload-17"
    ∧ posix_parent p = "/tmp".
Proof.
  apply (access_file_keeps_extension key_le no_sql "data/in/report.csv"
           "/tmp/upload-17" visits attached); [reflexivity | compute_done..].
Defined.

Lemma load_imports_file_witness :
  ∃ w0 : fs,
    @load_data engine "report.csv" fresh
    = (Ok {| result :=
               load_msg "report.csv" (length (rows visits))
                 +:+ schema_section key_le visits (columns visits)
                 +:+ sample_section (fst <$> columns visits) (take 5 (rows visits)) |},
       set_store (Some ([] ++ [Entry "main" "customers" "BASE TABLE" visits])) w0).
Proof.
  eexists.
  eapply (load_imports_file key_le no_sql "report.csv" fresh "report.csv" "report.csv"
            _ [] visits).
  - reflexivity.
  - compute_done.
  - reflexivity.
  - reflexivity.
  - reflexivity.
  - repeat constructor; compute_done.
Defined.


Lemma load_fails_on_foreign_column_witness :
  ∃ w0 : fs,
    @load_data engine "report.csv" foreign
    = (Raise (no_column "region"), set_store (Some foreign_catalog) w0).
Proof.
  eexists.
  eapply (load_fails_on_foreign_column key_le no_sql "report.csv" foreign
            "report.csv" "report.csv" _ foreign_catalog visits
            [] [("id", "BIGINT"); ("score", "BIGINT")] ("region", "VARCHAR")).
  - reflexivity.
  - compute_done.
  - reflexivity.
  - reflexivity.
  - vm_compute. reflexivity.
  - constructor.
  - compute_done.
  - reflexivity.
Defined.

Lemma sample_section_of_sole_customers_witness :
  ∃ (before : string) (sample : list (list pyval)),
    (@load_data engine "report.csv" fresh).1
    = Ok {| result := before +:+ sample_section (fst <$> columns visits) sample |}
    ∧ sample = take 5 (rows visits) ∧ length sample ≤ 5.
Proof.
  eapply (sample_section_of_sole_customers key_le no_sql "report.csv" fresh
            "report.csv" "report.csv" _ [] visits).
  - reflexivity.
  - compute_done.
  - reflexivity.
  - reflexivity.
  - reflexivity.
  - repeat constructor; compute_done.
Defined.

Lemma listing_has_loaded_table_witness :
  ∃ es : list entry,
    (@query engine "" (@load_data engine "report.csv" fresh).2).1
    = Ok {| result := render_tables es |}
    ∧ Entry "main" "customers" "BASE TABLE" visits ∈ es
    ∧ Sorted name_le es.
Proof.
  eapply (listing_has_loaded_table key_le no_sql "report.csv" fresh
            "report.csv" "report.csv" _ [] visits).
  - reflexivity.
  - compute_done.
  - reflexivity.
  - reflexivity.
  - reflexivity.
  - repeat constructor; compute_done.
Defined.

Lemma cleanup_deletes_store_witness :
  let w1 := (@cleanup engine two_schemas).2 in
  store_of w1 = None
  ∧ csv_files w1 = csv_files two_schemas ∧ chat_files w1 = chat_files two_schemas
  ∧ (@query engine "" w1).1 = Ok {| result := render_tables [] |}
  ∧ store_of (@query engine "" w1).2 = Some [].
Proof.
  apply (cleanup_deletes_store key_le no_sql two_schemas (Some two_schemas_catalog)).
  reflexivity.
Defined.


End WorkedCases.
